(** * ompay.js: the payment-gateway client, its error taxonomy and its
      webhook signature check, embedded from the TypeScript sources

    The development follows the layout of the package:
    - [JS]: the fragment of the JavaScript runtime the client relies on
      (dynamic values, [typeof], truthiness, [??], [String(...)]);
    - [Crypto]: Node's [createHmac("sha256", key).update(data).digest("hex")];
    - [AxiosResponse], [AxiosError], [Axios]: the transport as the client
      sees it;
    - [OMPayErrorDetails], [OMPayError]: [src/errors.ts];
    - [OMPayConfig], [CreateCheckoutRequest], ...: [src/types.ts];
    - [OMPayClient]: [src/client.ts];
    followed by the properties proved about them. *)

From Stdlib Require Import ZArith Bool List Ascii String Lia.
From Stdlib Require Import Floats.PrimFloat Floats.FloatOps Floats.SpecFloat.
Import ListNotations.

Local Open Scope string_scope.
Local Open Scope Z_scope.
Local Set Warnings "-inexact-float".

(* ================================================================== *)
(** * The JavaScript runtime fragment *)
(* ================================================================== *)

Module JS.

(** A JavaScript string is modelled by the byte sequence of its UTF-8
    encoding (what Node hashes when handed a string); equality, emptiness
    and concatenation of well-formed strings agree with those of their
    encodings. A JavaScript number is an IEEE 754 binary64 value. *)
Definition number := float.

(** Values that reach the client from callers and from JSON bodies. *)
#[warning="-register-all"]
Inductive value : Type :=
| VUndefined
| VNull
| VBool (b : bool)
| VNum (n : number)
| VStr (s : string)
| VArr (items : list value)
| VObj (fields : list (string * value)).

(** [Record<string, unknown>]: an object as its own properties, in
    insertion order, under distinct names. *)
Definition object := list (string * value).

(** [typeof v] *)
Definition typeof (v : value) : string :=
  match v with
  | VUndefined => "undefined"
  | VNull => "object"
  | VBool _ => "boolean"
  | VNum _ => "number"
  | VStr _ => "string"
  | VArr _ => "object"
  | VObj _ => "object"
  end.

(** ToBoolean: [undefined], [null], [false], [0], [-0], [NaN] and the empty
    string are falsy; every object is truthy. *)
Definition ToBoolean (v : value) : bool :=
  match v with
  | VUndefined => false
  | VNull => false
  | VBool b => b
  | VNum n => negb (PrimFloat.eqb n 0%float || PrimFloat.is_nan n)
  | VStr s => negb (String.eqb s "")
  | VArr _ => true
  | VObj _ => true
  end.

(** [a ?? b] *)
Definition nullish (v : value) : bool :=
  match v with
  | VUndefined | VNull => true
  | _ => false
  end.

Definition coalesce (a b : value) : value := if nullish a then b else a.

(** [o[k]] on an object: the first own property named [k]. *)
Fixpoint lookup (k : string) (o : object) : value :=
  match o with
  | [] => VUndefined
  | (k', v) :: rest => if String.eqb k k' then v else lookup k rest
  end.

(** [v[k]] on a value that is neither [null] nor [undefined]. Primitives
    and arrays have none of the property names the client reads. *)
Definition get (v : value) (k : string) : value :=
  match v with
  | VObj o => lookup k o
  | _ => VUndefined
  end.

(** [v?.[k]] *)
Definition get_opt (v : value) (k : string) : value :=
  if nullish v then VUndefined else get v k.

(** [s === v] for a string [s]: true exactly when [v] is that string. *)
Definition string_strict_equals (s : string) (v : value) : bool :=
  match v with
  | VStr t => String.eqb s t
  | _ => false
  end.

(** [list.includes(v)] for a list of strings. *)
Definition includes (l : list string) (v : value) : bool :=
  existsb (fun s => string_strict_equals s v) l.

(** The string held by a value after a [typeof v === "string"] check. *)
Definition as_string (v : value) : string :=
  match v with
  | VStr s => s
  | _ => ""
  end.

(** [...(v && props)] in an object literal: a falsy [v] spreads no
    property, a truthy one spreads [props]. *)
Definition spread_if (v : value) (props : object) : object :=
  if ToBoolean v then props else [].

(** ** Number::toString *)

(** Decimal digits of a non-negative integer, most significant first. *)
Definition digit_char (d : Z) : ascii := ascii_of_N (Z.to_N (48 + d)).

Fixpoint digits_fuel (fuel : nat) (z : Z) (acc : string) : string :=
  match fuel with
  | O => acc
  | S f =>
      let acc' := String (digit_char (z mod 10)) acc in
      if z <? 10 then acc' else digits_fuel f (z / 10) acc'
  end.

Definition digits (z : Z) : string :=
  digits_fuel (S (Z.to_nat (Z.log2 z))) z "".

Fixpoint zeros (n : nat) : string :=
  match n with
  | O => ""
  | S m => String "0" (zeros m)
  end.

(** [x = m * 2^e] with [0 < m]: the rounding interval of [x], in quarters of
    the unit [2^e], as [(lo, mid, hi)]; the interval is closed exactly when
    the significand is even. *)
Definition rounding_interval (m e : Z) : Z * Z * Z :=
  let lo := if (m =? 2 ^ 52) && (-1074 <? e) then 4 * m - 1 else 4 * m - 2 in
  (lo, 4 * m, 4 * m + 2).

(** Comparing [q * 2^(e-2)] with [s * 10^p] is comparing [q * a] with
    [s * b] for these [a], [b]. *)
Definition scale_pair (e p : Z) : Z * Z :=
  (2 ^ Z.max (e - 2) 0 * 10 ^ Z.max (- p) 0,
   10 ^ Z.max p 0 * 2 ^ Z.max (2 - e) 0).

(** The significand [s] in [[10^(k-1), 10^k]] with [s * 10^(n-k)] inside
    the rounding interval and closest to [x] (the even one of two equally
    close), when there is one. *)
Definition candidate (m e n k : Z) : option Z :=
  let '(lo, mid, hi) := rounding_interval m e in
  let '(a, b) := scale_pair e (n - k) in
  let closed := Z.even m in
  let s_lo := if closed then (lo * a + b - 1) / b else lo * a / b + 1 in
  let s_hi := if closed then hi * a / b else (hi * a + b - 1) / b - 1 in
  let s_lo := Z.max s_lo (10 ^ (k - 1)) in
  let s_hi := Z.min s_hi (10 ^ k) in
  if s_hi <? s_lo then None
  else
    let twice := 2 * mid * a in
    let near := (twice + b) / (2 * b) in
    let near := if (twice + b =? near * (2 * b)) && Z.odd near
                then near - 1 else near in
    Some (Z.max s_lo (Z.min s_hi near)).

(** The decimal exponent [n] with [10^(n-1) <= m * 2^e < 10^n]. *)
Fixpoint adjust_up (fuel : nat) (m e n : Z) : Z :=
  match fuel with
  | O => n
  | S f =>
      let '(a, b) := scale_pair (e + 2) n in
      if m * a <? b then n else adjust_up f m e (n + 1)
  end.

Fixpoint adjust_down (fuel : nat) (m e n : Z) : Z :=
  match fuel with
  | O => n
  | S f =>
      let '(a, b) := scale_pair (e + 2) (n - 1) in
      if b <=? m * a then n else adjust_down f m e (n - 1)
  end.

Definition decimal_exponent (m e : Z) : Z :=
  let estimate := (e + Z.log2 m) * 1233 / 4096 + 1 in
  adjust_up 4 m e (adjust_down 4 m e estimate).

(** The shortest significand: the least number of digits [k] that has a
    candidate; [(s, n, k)] with [s] of [k] digits. A candidate [10^k]
    is the one digit [1] of the next decade. *)
Fixpoint shortest_from (fuel : nat) (m e n k : Z) : Z * Z * Z :=
  match fuel with
  | O => (m, n, k)
  | S f =>
      match candidate m e n k with
      | Some s => if s =? 10 ^ k then (10 ^ (k - 1), n + 1, k) else (s, n, k)
      | None => shortest_from f m e n (k + 1)
      end
  end.

Definition shortest (m e : Z) : Z * Z * Z :=
  shortest_from 17 m e (decimal_exponent m e) 1.

(** Layout of the digits [s] ([k] of them) with decimal exponent [n]. *)
Definition layout (s n k : Z) : string :=
  let ds := digits s in
  if (-5 <=? n) && (n <=? 21) then
    if k <=? n then ds ++ zeros (Z.to_nat (n - k))
    else if 0 <? n then
      substring 0 (Z.to_nat n) ds ++ "." ++
      substring (Z.to_nat n) (Z.to_nat (k - n)) ds
    else "0." ++ zeros (Z.to_nat (- n)) ++ ds
  else
    let ex := n - 1 in
    let tail := "e" ++ (if ex <? 0 then "-" else "+") ++ digits (Z.abs ex) in
    if k =? 1 then ds ++ tail
    else substring 0 1 ds ++ "." ++ substring 1 (Z.to_nat (k - 1)) ds ++ tail.

Definition Number_toString (x : number) : string :=
  match Prim2SF x with
  | S754_nan => "NaN"
  | S754_zero _ => "0"
  | S754_infinity sign => if sign then "-Infinity" else "Infinity"
  | S754_finite sign m e =>
      let '(s, n, k) := shortest (Z.pos m) e in
      (if sign then "-" else "") ++ layout s n k
  end.

(** ** ToString, as applied by [String(v)], template literals and
    property keys *)
Fixpoint ToString (v : value) : string :=
  match v with
  | VUndefined => "undefined"
  | VNull => "null"
  | VBool true => "true"
  | VBool false => "false"
  | VNum n => Number_toString n
  | VStr s => s
  | VArr items =>
      (fix join (l : list value) : string :=
         match l with
         | [] => ""
         | x :: rest =>
             (if nullish x then "" else ToString x) ++
             match rest with
             | [] => ""
             | _ :: _ => "," ++ join rest
             end
         end) items
  | VObj _ => "[object Object]"
  end.

End JS.

Import JS.

(* ================================================================== *)
(** * Node's keyed hash: HMAC over SHA-256, hexadecimal digest *)
(* ================================================================== *)

Module Crypto.

(** Bytes are integers in [0, 256); words are integers in [0, 2^32). *)
Definition bytes_of_string (s : string) : list Z :=
  map (fun c => Z.of_N (N_of_ascii c)) (list_ascii_of_string s).

Definition add32 (x y : Z) : Z := (x + y) mod 2 ^ 32.
Definition rotr (n x : Z) : Z :=
  Z.lor (Z.shiftr x n) (Z.shiftl x (32 - n) mod 2 ^ 32).
Definition not32 (x : Z) : Z := Z.lxor x (2 ^ 32 - 1).

Definition Ch (x y z : Z) : Z := Z.lxor (Z.land x y) (Z.land (not32 x) z).
Definition Maj (x y z : Z) : Z :=
  Z.lxor (Z.lxor (Z.land x y) (Z.land x z)) (Z.land y z).
Definition Sigma0 (x : Z) : Z := Z.lxor (Z.lxor (rotr 2 x) (rotr 13 x)) (rotr 22 x).
Definition Sigma1 (x : Z) : Z := Z.lxor (Z.lxor (rotr 6 x) (rotr 11 x)) (rotr 25 x).
Definition sigma0 (x : Z) : Z := Z.lxor (Z.lxor (rotr 7 x) (rotr 18 x)) (Z.shiftr x 3).
Definition sigma1 (x : Z) : Z := Z.lxor (Z.lxor (rotr 17 x) (rotr 19 x)) (Z.shiftr x 10).

(** The constants of FIPS 180-4 are the first 32 bits of the fractional
    parts of the cube roots (round constants) and of the square roots
    (initial state) of the first primes. *)
Definition is_prime (p : Z) : bool :=
  forallb (fun d => negb (p mod Z.of_nat d =? 0)) (seq 2 (Z.to_nat p - 2)).

Definition primes_below (n : nat) : list Z :=
  filter is_prime (map Z.of_nat (seq 2 (n - 2))).

Fixpoint cube_root_from (bits : nat) (n r : Z) : Z :=
  match bits with
  | O => r
  | S b =>
      let r' := r + 2 ^ Z.of_nat b in
      cube_root_from b n (if r' * r' * r' <=? n then r' else r)
  end.

Definition cube_root_fraction (p : Z) : Z :=
  cube_root_from 36 (p * 2 ^ 96) 0 mod 2 ^ 32.

Definition square_root_fraction (p : Z) : Z :=
  Z.sqrt (p * 2 ^ 64) mod 2 ^ 32.

Definition K : list Z :=
  Eval vm_compute in map cube_root_fraction (primes_below 312).

(** The eight working words. *)
Record hash_state : Type := mk_state {
  wa : Z; wb : Z; wc : Z; wd : Z; we : Z; wf : Z; wg : Z; wh : Z
}.

Definition state_of_words (ws : list Z) : hash_state :=
  let w i := nth i ws 0 in
  mk_state (w 0%nat) (w 1%nat) (w 2%nat) (w 3%nat)
           (w 4%nat) (w 5%nat) (w 6%nat) (w 7%nat).

Definition initial_state : hash_state :=
  Eval vm_compute in
    state_of_words (map square_root_fraction (primes_below 20)).

(** One round, with round constant plus schedule word [kw]. *)
Definition round (s : hash_state) (kw : Z) : hash_state :=
  let t1 := add32 (add32 (add32 (wh s) (Sigma1 (we s)))
                         (Ch (we s) (wf s) (wg s))) kw in
  let t2 := add32 (Sigma0 (wa s)) (Maj (wa s) (wb s) (wc s)) in
  mk_state (add32 t1 t2) (wa s) (wb s) (wc s)
           (add32 (wd s) t1) (we s) (wf s) (wg s).

(** The message schedule, newest word first: [n] more words after the
    sixteen of the block. *)
Fixpoint extend_schedule (n : nat) (newest_first : list Z) : list Z :=
  match n with
  | O => newest_first
  | S n' =>
      let w i := nth i newest_first 0 in
      let next := add32 (add32 (add32 (sigma1 (w 1%nat)) (w 6%nat))
                               (sigma0 (w 14%nat))) (w 15%nat) in
      extend_schedule n' (next :: newest_first)
  end.

Definition schedule (block : list Z) : list Z :=
  rev (extend_schedule 48 (rev block)).

Definition add_state (s t : hash_state) : hash_state :=
  mk_state (add32 (wa s) (wa t)) (add32 (wb s) (wb t))
           (add32 (wc s) (wc t)) (add32 (wd s) (wd t))
           (add32 (we s) (we t)) (add32 (wf s) (wf t))
           (add32 (wg s) (wg t)) (add32 (wh s) (wh t)).

(** Compression of one block of sixteen words. *)
Definition compress (s : hash_state) (block : list Z) : hash_state :=
  add_state s
    (fold_left round (map (fun kw => add32 (fst kw) (snd kw))
                          (combine K (schedule block))) s).

(** Big-endian words of a byte sequence whose length is a multiple of 4. *)
Fixpoint words_of_bytes (bs : list Z) : list Z :=
  match bs with
  | b0 :: b1 :: b2 :: b3 :: rest =>
      (((b0 * 256 + b1) * 256 + b2) * 256 + b3) :: words_of_bytes rest
  | _ => []
  end.

Definition word_bytes (w : Z) : list Z :=
  [ Z.shiftr w 24 mod 256; Z.shiftr w 16 mod 256;
    Z.shiftr w 8 mod 256; w mod 256 ].

(** Padding: a one bit, zeros, then the bit length on 64 bits. *)
Definition pad (msg : list Z) : list Z :=
  let len := Z.of_nat (List.length msg) in
  let bits := 8 * len in
  msg ++ [128] ++ repeat 0 (Z.to_nat ((55 - len) mod 64)) ++
  word_bytes (Z.shiftr bits 32 mod 2 ^ 32) ++ word_bytes (bits mod 2 ^ 32).

Fixpoint hash_blocks (fuel : nat) (s : hash_state) (ws : list Z) : hash_state :=
  match fuel, ws with
  | S f, _ :: _ => hash_blocks f (compress s (firstn 16 ws)) (skipn 16 ws)
  | _, _ => s
  end.

Definition sha256 (msg : list Z) : hash_state :=
  let ws := words_of_bytes (pad msg) in
  hash_blocks (List.length ws) initial_state ws.

Definition state_words (s : hash_state) : list Z :=
  [wa s; wb s; wc s; wd s; we s; wf s; wg s; wh s].

Definition state_bytes (s : hash_state) : list Z :=
  flat_map word_bytes (state_words s).

(** HMAC (RFC 2104) with block size 64. *)
Definition hmac_key_block (key : list Z) : list Z :=
  let k := if (64 <? Z.of_nat (List.length key))
           then state_bytes (sha256 key) else key in
  k ++ repeat 0 (64 - List.length k)%nat.

Definition hmac_sha256 (key msg : list Z) : hash_state :=
  let k := hmac_key_block key in
  let inner := sha256 (map (Z.lxor 0x36) k ++ msg) in
  sha256 (map (Z.lxor 0x5c) k ++ state_bytes inner).

(** Lowercase hexadecimal. *)
Definition hex_digit (n : Z) : ascii :=
  ascii_of_N (Z.to_N (if n <? 10 then 48 + n else 87 + n)).

Definition hex_word (w : Z) : string :=
  String (hex_digit (Z.shiftr w 28 mod 16))
 (String (hex_digit (Z.shiftr w 24 mod 16))
 (String (hex_digit (Z.shiftr w 20 mod 16))
 (String (hex_digit (Z.shiftr w 16 mod 16))
 (String (hex_digit (Z.shiftr w 12 mod 16))
 (String (hex_digit (Z.shiftr w 8 mod 16))
 (String (hex_digit (Z.shiftr w 4 mod 16))
 (String (hex_digit (w mod 16)) ""))))))).

Definition hex_state (s : hash_state) : string :=
  hex_word (wa s) ++ hex_word (wb s) ++ hex_word (wc s) ++ hex_word (wd s) ++
  hex_word (we s) ++ hex_word (wf s) ++ hex_word (wg s) ++ hex_word (wh s).

(** [createHmac("sha256", key)], [.update(data)], [.digest("hex")] *)
Record Hmac : Type := { hmac_key : string; hmac_data : string }.

Definition createHmac_sha256 (key : string) : Hmac :=
  {| hmac_key := key; hmac_data := "" |}.

Definition update (h : Hmac) (data : string) : Hmac :=
  {| hmac_key := hmac_key h; hmac_data := hmac_data h ++ data |}.

Definition digest_hex (h : Hmac) : string :=
  hex_state (hmac_sha256 (bytes_of_string (hmac_key h))
                         (bytes_of_string (hmac_data h))).

End Crypto.

(* ================================================================== *)
(** * The HTTP transport (axios), as far as the client sees it *)
(* ================================================================== *)

Module AxiosResponse.
Record t : Type := { status : number; data : value }.
End AxiosResponse.

(** A failed call. [response] is present when the gateway answered,
    [code] is axios' error code, [request] the request object when one was
    sent. *)
Module AxiosError.
Record t : Type := {
  response : option AxiosResponse.t;
  code : option string;
  request : value;
  message : string
}.
End AxiosError.

Module Axios.

(** The configuration handed to [axios.create]. *)
Record instance : Type := {
  baseURL : value;
  timeout : value;
  headers : list (string * string);
  auth : value * value   (* username, password *)
}.

Definition create (config : instance) : instance := config.

Inductive method : Type := GET | POST.

(** One outbound request. *)
Record call : Type := {
  via : instance;
  verb : method;
  url : string;
  body : option object;
  params : object
}.

Definition post (i : instance) (path : string) (payload : object) : call :=
  {| via := i; verb := POST; url := path; body := Some payload; params := [] |}.

Definition get (i : instance) (path : string) (query : object) : call :=
  {| via := i; verb := GET; url := path; body := None; params := query |}.

(** The awaited promise: fulfilled with a response or rejected. *)
Inductive outcome : Type :=
| Resolved (response : AxiosResponse.t)
| Rejected (error : AxiosError.t).

(** The gateway and the network between: what each call comes back with. *)
Definition network := call -> outcome.

(** Reading a property of [null] or [undefined] throws a [TypeError]; seen
    through the [AxiosError] cast of the [catch] blocks it carries a message
    only (V8's wording). *)
Definition TypeError_reading (v : value) (k : string) : AxiosError.t :=
  {| AxiosError.response := None;
     AxiosError.code := None;
     AxiosError.request := VUndefined;
     AxiosError.message :=
       "Cannot read properties of " ++ ToString v ++
       " (reading '" ++ k ++ "')" |}.

End Axios.

(* ================================================================== *)
(** * src/errors.ts *)
(* ================================================================== *)

Inductive OMPayErrorCode : Type :=
| AUTHENTICATION_ERROR
| VALIDATION_ERROR
| API_ERROR
| NETWORK_ERROR
| SIGNATURE_MISMATCH
| TIMEOUT_ERROR
| UNKNOWN_ERROR.


Module OMPayErrorDetails.
Record t : Type := {
  code : OMPayErrorCode;
  message : string;
  statusCode : option number;
  originalError : option AxiosError.t;
  response : value
}.
End OMPayErrorDetails.

Module OMPayError.

Record t : Type := {
  name : string;
  code : OMPayErrorCode;
  message : string;
  statusCode : option number;
  response : value;
  originalError : option AxiosError.t
}.

(** [new OMPayError(details)] *)
Definition new (details : OMPayErrorDetails.t) : t :=
  {| name := "OMPayError";
     code := OMPayErrorDetails.code details;
     message := OMPayErrorDetails.message details;
     statusCode := OMPayErrorDetails.statusCode details;
     response := coalesce (OMPayErrorDetails.response details) VUndefined;
     originalError := OMPayErrorDetails.originalError details |}.

(** [new OMPayError({ code, message })] *)
Definition plain (c : OMPayErrorCode) (msg : string) : t :=
  new {| OMPayErrorDetails.code := c;
         OMPayErrorDetails.message := msg;
         OMPayErrorDetails.statusCode := None;
         OMPayErrorDetails.originalError := None;
         OMPayErrorDetails.response := VUndefined |}.

Definition fromAxiosError (error : AxiosError.t) : t :=
  match AxiosError.response error with
  | Some response =>
      let statusCode := AxiosResponse.status response in
      let responseData := AxiosResponse.data response in
      if (statusCode =? 401)%float || (statusCode =? 403)%float then
        new {| OMPayErrorDetails.code := AUTHENTICATION_ERROR;
               OMPayErrorDetails.message :=
                 "Authentication failed. Please check your client ID and secret.";
               OMPayErrorDetails.statusCode := Some statusCode;
               OMPayErrorDetails.response := responseData;
               OMPayErrorDetails.originalError := Some error |}
      else if (statusCode =? 400)%float || (statusCode =? 422)%float then
        new {| OMPayErrorDetails.code := VALIDATION_ERROR;
               OMPayErrorDetails.message :=
                 ToString (coalesce (get_opt responseData "message")
                                    (VStr "Validation error occurred"));
               OMPayErrorDetails.statusCode := Some statusCode;
               OMPayErrorDetails.response := responseData;
               OMPayErrorDetails.originalError := Some error |}
      else
        new {| OMPayErrorDetails.code := API_ERROR;
               OMPayErrorDetails.message :=
                 ToString (coalesce (get_opt responseData "message")
                                    (VStr ("API error: " ++
                                           Number_toString statusCode)));
               OMPayErrorDetails.statusCode := Some statusCode;
               OMPayErrorDetails.response := responseData;
               OMPayErrorDetails.originalError := Some error |}
  | None =>
      if match AxiosError.code error with
         | Some c => String.eqb c "ECONNABORTED"
         | None => false
         end
      then
        new {| OMPayErrorDetails.code := TIMEOUT_ERROR;
               OMPayErrorDetails.message := "Request timed out";
               OMPayErrorDetails.statusCode := None;
               OMPayErrorDetails.response := VUndefined;
               OMPayErrorDetails.originalError := Some error |}
      else if ToBoolean (AxiosError.request error) then
        new {| OMPayErrorDetails.code := NETWORK_ERROR;
               OMPayErrorDetails.message :=
                 "Network error. Please check your internet connection.";
               OMPayErrorDetails.statusCode := None;
               OMPayErrorDetails.response := VUndefined;
               OMPayErrorDetails.originalError := Some error |}
      else
        new {| OMPayErrorDetails.code := UNKNOWN_ERROR;
               OMPayErrorDetails.message :=
                 if String.eqb (AxiosError.message error) ""
                 then "An unknown error occurred"
                 else AxiosError.message error;
               OMPayErrorDetails.statusCode := None;
               OMPayErrorDetails.response := VUndefined;
               OMPayErrorDetails.originalError := Some error |}
  end.

Definition signatureMismatch : t :=
  plain SIGNATURE_MISMATCH
    "Payment signature verification failed. The signature does not match.".


End OMPayError.

(** Outcome of an operation that returns or throws an [OMPayError]. *)
Inductive result (A : Type) : Type :=
| Return (a : A)
| Throw (e : OMPayError.t).
Arguments Return {A} a.
Arguments Throw {A} e.

Definition bind {A B : Type} (m : result A) (k : A -> result B) : result B :=
  match m with
  | Return a => k a
  | Throw e => Throw e
  end.

Notation "x <- m ;; k" := (bind m (fun x => k))
  (at level 61, m at next level, right associativity).
Notation "m ;; k" := (bind m (fun _ => k))
  (at level 61, right associativity).

(** [if (cond) { throw e }] *)
Definition throw_if (cond : bool) (e : OMPayError.t) : result unit :=
  if cond then Throw e else Return tt.

(* ================================================================== *)
(** * src/types.ts *)
(* ================================================================== *)

(** Caller-supplied records keep every field as a dynamic value: the
    client checks them at run time. An omitted optional field is
    [undefined]. *)
Module OMPayConfig.
Record t : Type := {
  clientId : value;
  clientSecret : value;
  environment : value;
  timeout : value
}.
End OMPayConfig.

Module CreateCheckoutRequest.
Record t : Type := {
  amount : value;
  currency : value;
  uiMode : value;
  redirectType : value;
  customer : value;
  orderReference : value;
  metadata : value
}.
End CreateCheckoutRequest.

Module CreateCheckoutResponse.
Record t : Type := {
  orderId : string;
  checkoutUrl : value;
  status : string;
  data : value
}.
End CreateCheckoutResponse.


Module SignaturePayload.
Record t : Type := { orderId : value; paymentId : value }.
End SignaturePayload.

Module OrderStatusResponse.
Record t : Type := {
  orderId : string;
  status : value;
  paymentId : value;
  amount : value;
  currency : value;
  paymentDetails : value;
  createdAt : value;
  updatedAt : value;
  data : value
}.
End OrderStatusResponse.

(* ================================================================== *)
(** * src/client.ts *)
(* ================================================================== *)

Definition API_URLS : object :=
  [ ("sandbox", VStr "https://api.uat.gateway.ompay.com");
    ("production", VStr "https://api.gateway.ompay.com") ].

Definition DEFAULT_TIMEOUT : number := 30000%float.

Module OMPayClient.

Record t : Type := {
  httpClient : Axios.instance;
  clientId : string;
  clientSecret : string;
  environment : value
}.

Definition validation_error (msg : string) : OMPayError.t :=
  OMPayError.plain VALIDATION_ERROR msg.

Definition validateConfig (config : OMPayConfig.t) : result unit :=
  throw_if (negb (ToBoolean (OMPayConfig.clientId config)) ||
            negb (String.eqb (typeof (OMPayConfig.clientId config)) "string"))
    (validation_error "clientId is required and must be a string") ;;
  throw_if (negb (ToBoolean (OMPayConfig.clientSecret config)) ||
            negb (String.eqb (typeof (OMPayConfig.clientSecret config)) "string"))
    (validation_error "clientSecret is required and must be a string") ;;
  throw_if (ToBoolean (OMPayConfig.environment config) &&
            negb (includes ["sandbox"; "production"]
                           (OMPayConfig.environment config)))
    (validation_error "environment must be either 'sandbox' or 'production'").

(** [new OMPayClient(config)] *)
Definition new (config : OMPayConfig.t) : result t :=
  validateConfig config ;;
  let clientId := OMPayConfig.clientId config in
  let clientSecret := OMPayConfig.clientSecret config in
  let environment := coalesce (OMPayConfig.environment config) (VStr "sandbox") in
  let baseURL := lookup (ToString environment) API_URLS in
  Return
    {| httpClient :=
         Axios.create
           {| Axios.baseURL := baseURL;
              Axios.timeout :=
                coalesce (OMPayConfig.timeout config) (VNum DEFAULT_TIMEOUT);
              Axios.headers := [("Content-Type", "application/json")];
              Axios.auth := (clientId, clientSecret) |};
       clientId := as_string clientId;
       clientSecret := as_string clientSecret;
       environment := environment |}.

Definition validateCheckoutRequest (request : CreateCheckoutRequest.t)
  : result unit :=
  throw_if
    (negb (String.eqb (typeof (CreateCheckoutRequest.amount request)) "number") ||
     (* [request.amount <= 0], evaluated on a number only *)
     match CreateCheckoutRequest.amount request with
     | VNum a => (a <=? 0)%float
     | _ => false
     end)
    (validation_error "amount must be a positive number") ;;
  throw_if
    (negb (ToBoolean (CreateCheckoutRequest.currency request)) ||
     negb (String.eqb (typeof (CreateCheckoutRequest.currency request)) "string"))
    (validation_error "currency is required and must be a string") ;;
  throw_if (negb (ToBoolean (CreateCheckoutRequest.customer request)))
    (validation_error "customer information is required") ;;
  throw_if
    (negb (ToBoolean (JS.get (CreateCheckoutRequest.customer request) "phone")) ||
     negb (ToBoolean (JS.get (CreateCheckoutRequest.customer request) "email")) ||
     negb (ToBoolean (JS.get (CreateCheckoutRequest.customer request) "name")))
    (validation_error "customer phone, email, and name are required").

(** The object literal [payload] of [createCheckout]. *)
Definition checkout_payload (request : CreateCheckoutRequest.t) : object :=
  ([ ("amount", CreateCheckoutRequest.amount request);
    ("currency", CreateCheckoutRequest.currency request);
    ("uiMode", coalesce (CreateCheckoutRequest.uiMode request) (VStr "checkout"));
    ("redirectType",
     coalesce (CreateCheckoutRequest.redirectType request) (VStr "redirect"));
    ("phone", JS.get (CreateCheckoutRequest.customer request) "phone");
    ("email", JS.get (CreateCheckoutRequest.customer request) "email");
    ("name", JS.get (CreateCheckoutRequest.customer request) "name") ]
  ++ spread_if (CreateCheckoutRequest.orderReference request)
       [("orderReference", CreateCheckoutRequest.orderReference request)]
  ++ spread_if (CreateCheckoutRequest.metadata request)
       [("metadata", CreateCheckoutRequest.metadata request)])%list.

(** An asynchronous operation yields the calls it issued, in order, and
    what its promise settles to. *)
Definition createCheckout (this : t) (net : Axios.network)
    (request : CreateCheckoutRequest.t)
  : list Axios.call * result CreateCheckoutResponse.t :=
  match validateCheckoutRequest request with
  | Throw e => ([], Throw e)
  | Return _ =>
      let payload := checkout_payload request in
      let sent :=
        Axios.post (httpClient this)
                   "/nac/api/v1/pg/orders/create-checkout" payload in
      ([sent],
       match net sent with
       | Axios.Resolved response =>
           let data := AxiosResponse.data response in
           if nullish data then
             Throw (OMPayError.fromAxiosError
                      (Axios.TypeError_reading data "orderId"))
           else
             Return
               {| CreateCheckoutResponse.orderId :=
                    ToString (coalesce (JS.get data "orderId") (VStr ""));
                  CreateCheckoutResponse.checkoutUrl := JS.get data "checkoutUrl";
                  CreateCheckoutResponse.status :=
                    ToString (coalesce (JS.get data "status") (VStr ""));
                  CreateCheckoutResponse.data := data |}
       | Axios.Rejected error => Throw (OMPayError.fromAxiosError error)
       end)
  end.

Definition checkStatus (this : t) (net : Axios.network) (orderId : value)
  : list Axios.call * result OrderStatusResponse.t :=
  match
    throw_if (negb (ToBoolean orderId) ||
              negb (String.eqb (typeof orderId) "string"))
      (validation_error "orderId is required and must be a string")
  with
  | Throw e => ([], Throw e)
  | Return _ =>
      let sent :=
        Axios.get (httpClient this)
                  "/nac/api/v1/pg/orders/check-status"
                  [("orderId", orderId)] in
      ([sent],
       match net sent with
       | Axios.Resolved response =>
           let data := AxiosResponse.data response in
           if nullish data then
             Throw (OMPayError.fromAxiosError
                      (Axios.TypeError_reading data "orderId"))
           else
             Return
               {| OrderStatusResponse.orderId :=
                    ToString (coalesce (JS.get data "orderId") orderId);
                  OrderStatusResponse.status := JS.get data "status";
                  OrderStatusResponse.paymentId := JS.get data "paymentId";
                  OrderStatusResponse.amount := JS.get data "amount";
                  OrderStatusResponse.currency := JS.get data "currency";
                  OrderStatusResponse.paymentDetails := JS.get data "paymentDetails";
                  OrderStatusResponse.createdAt := JS.get data "createdAt";
                  OrderStatusResponse.updatedAt := JS.get data "updatedAt";
                  OrderStatusResponse.data := data |}
       | Axios.Rejected error => Throw (OMPayError.fromAxiosError error)
       end)
  end.

Definition verifySignature (this : t) (payload : SignaturePayload.t)
    (signature : value) : result bool :=
  throw_if (negb (ToBoolean (SignaturePayload.orderId payload)) ||
            negb (ToBoolean (SignaturePayload.paymentId payload)))
    (validation_error
       "orderId and paymentId are required for signature verification") ;;
  throw_if (negb (ToBoolean signature) ||
            negb (String.eqb (typeof signature) "string"))
    (validation_error "signature is required and must be a string") ;;
  let dataToSign :=
    ToString (SignaturePayload.orderId payload) ++ "/" ++
    ToString (SignaturePayload.paymentId payload) in
  let expectedSignature :=
    Crypto.digest_hex
      (Crypto.update (Crypto.createHmac_sha256 (clientSecret this)) dataToSign) in
  Return (string_strict_equals expectedSignature signature).

Definition verifySignatureOrThrow (this : t) (payload : SignaturePayload.t)
    (signature : value) : result unit :=
  ok <- verifySignature this payload signature ;;
  throw_if (negb ok) OMPayError.signatureMismatch.

Definition getClientId (this : t) : string := clientId this.
Definition getEnvironment (this : t) : value := environment this.
Definition getBaseUrl (this : t) : value :=
  lookup (ToString (environment this)) API_URLS.

End OMPayClient.

(* ================================================================== *)
(** * Vocabulary of the properties, and sample data *)
(* ================================================================== *)

(** The keyed hash the gateway computes for a webhook: HMAC-SHA256 of
    [message] under [secret], as lowercase hexadecimal. *)
Definition keyed_hash (secret message : string) : string :=
  Crypto.digest_hex (Crypto.update (Crypto.createHmac_sha256 secret) message).

(** The payload [{ orderId: O, paymentId: P }] of two strings. *)
Definition payload_of (O P : string) : SignaturePayload.t :=
  {| SignaturePayload.orderId := VStr O; SignaturePayload.paymentId := VStr P |}.

(** The string [s] with its [i]-th character replaced by [c]. *)
Fixpoint replace_at (i : nat) (c : ascii) (s : string) : string :=
  match s, i with
  | EmptyString, _ => EmptyString
  | String _ rest, O => String c rest
  | String a rest, S j => String a (replace_at j c rest)
  end.

(** The digest is written with the sixteen lowercase digits. *)
Definition is_lower_hex (c : ascii) : bool :=
  existsb (Ascii.eqb c) (list_ascii_of_string "0123456789abcdef").

Fixpoint all_chars (p : ascii -> bool) (s : string) : bool :=
  match s with
  | EmptyString => true
  | String c rest => p c && all_chars p rest
  end.

(** Two sample clients that share a secret and differ in everything else. *)
Definition sandbox_client : OMPayClient.t :=
  {| OMPayClient.httpClient :=
       Axios.create
         {| Axios.baseURL := VStr "https://api.uat.gateway.ompay.com";
            Axios.timeout := VNum DEFAULT_TIMEOUT;
            Axios.headers := [("Content-Type", "application/json")];
            Axios.auth := (VStr "test-client-id", VStr "my-super-secret-key") |};
     OMPayClient.clientId := "test-client-id";
     OMPayClient.clientSecret := "my-super-secret-key";
     OMPayClient.environment := VStr "sandbox" |}.

Definition sandbox_config : OMPayConfig.t :=
  {| OMPayConfig.clientId := VStr "test-client-id";
     OMPayConfig.clientSecret := VStr "my-super-secret-key";
     OMPayConfig.environment := VStr "sandbox";
     OMPayConfig.timeout := VUndefined |}.

Definition production_config : OMPayConfig.t :=
  {| OMPayConfig.clientId := VStr "another-client";
     OMPayConfig.clientSecret := VStr "my-super-secret-key";
     OMPayConfig.environment := VStr "production";
     OMPayConfig.timeout := VNum 5000%float |}.

Definition production_client : OMPayClient.t :=
  {| OMPayClient.httpClient :=
       Axios.create
         {| Axios.baseURL := VStr "https://api.gateway.ompay.com";
            Axios.timeout := VNum 5000%float;
            Axios.headers := [("Content-Type", "application/json")];
            Axios.auth := (VStr "another-client", VStr "my-super-secret-key") |};
     OMPayClient.clientId := "another-client";
     OMPayClient.clientSecret := "my-super-secret-key";
     OMPayClient.environment := VStr "production" |}.

(** A 500 with a JSON body, a timeout that also carries a request object,
    and a failure with neither response, code nor request. *)
Definition server_error : AxiosError.t :=
  {| AxiosError.response :=
       Some {| AxiosResponse.status := 500%float;
               AxiosResponse.data := VObj [("message", VStr "boom")] |};
     AxiosError.code := Some "ERR_BAD_RESPONSE";
     AxiosError.request := VObj [];
     AxiosError.message := "Request failed with status code 500" |}.



(** "amount is not a number or is <= 0" *)
Definition amount_rejected (amount : value) : bool :=
  match amount with
  | VNum a => (a <=? 0)%float
  | _ => true
  end.

(** "currency is empty or not a string" *)
Definition currency_rejected (currency : value) : bool :=
  match currency with
  | VStr s => String.eqb s ""
  | _ => true
  end.

(** "customer.k is empty": missing, or the empty string. *)
Definition empty_field (customer : value) (k : string) : bool :=
  match JS.get customer k with
  | VUndefined | VNull => true
  | VStr s => String.eqb s ""
  | _ => false
  end.

Definition path_create_checkout : string :=
  "/nac/api/v1/pg/orders/create-checkout".

(** The requests of the repository's tests, and a gateway that answers
    every call with [{orderId: "o1", status: "pending"}]. *)
Definition test_customer : value :=
  VObj [("phone", VStr "+96891234567");
        ("email", VStr "test@example.com");
        ("name", VStr "Test User")].

Definition checkout_request (amount currency customer orderReference : value)
  : CreateCheckoutRequest.t :=
  {| CreateCheckoutRequest.amount := amount;
     CreateCheckoutRequest.currency := currency;
     CreateCheckoutRequest.uiMode := VUndefined;
     CreateCheckoutRequest.redirectType := VUndefined;
     CreateCheckoutRequest.customer := customer;
     CreateCheckoutRequest.orderReference := orderReference;
     CreateCheckoutRequest.metadata := VUndefined |}.

Definition pending_gateway : Axios.network :=
  fun _ =>
    Axios.Resolved
      {| AxiosResponse.status := 200%float;
         AxiosResponse.data :=
           VObj [("orderId", VStr "o1"); ("status", VStr "pending")] |}.

(** The property names of the payload: the seven fixed ones, then
    [orderReference] and [metadata] when the request's values are truthy. *)
Definition payload_keys (request : CreateCheckoutRequest.t) : list string :=
  (["amount"; "currency"; "uiMode"; "redirectType"; "phone"; "email"; "name"]
   ++ (if ToBoolean (CreateCheckoutRequest.orderReference request)
       then ["orderReference"] else [])
   ++ (if ToBoolean (CreateCheckoutRequest.metadata request)
       then ["metadata"] else []))%list.

Definition path_check_status : string := "/nac/api/v1/pg/orders/check-status".


Definition config_of (clientId clientSecret environment timeout : value)
  : OMPayConfig.t :=
  {| OMPayConfig.clientId := clientId;
     OMPayConfig.clientSecret := clientSecret;
     OMPayConfig.environment := environment;
     OMPayConfig.timeout := timeout |}.

(** "clientId (clientSecret) is missing": undefined, null or empty. *)
Definition missing (v : value) : bool :=
  match v with
  | VUndefined | VNull => true
  | VStr s => String.eqb s ""
  | _ => false
  end.

(** The environments the configuration may name, or omit. *)
Definition valid_environment (v : value) : Prop :=
  v = VUndefined \/ v = VStr "sandbox" \/ v = VStr "production".

(** A string with at least one character. *)
Definition nonempty_string (v : value) : bool :=
  match v with
  | VStr s => negb (String.eqb s "")
  | _ => false
  end.

(** The requests [validateCheckoutRequest] lets through: a number amount
    that is not [<= 0], a non-empty string currency, a truthy customer
    with truthy phone, email and name. *)
Definition checkout_accepted (request : CreateCheckoutRequest.t) : bool :=
  negb (amount_rejected (CreateCheckoutRequest.amount request))
  && nonempty_string (CreateCheckoutRequest.currency request)
  && ToBoolean (CreateCheckoutRequest.customer request)
  && ToBoolean (JS.get (CreateCheckoutRequest.customer request) "phone")
  && ToBoolean (JS.get (CreateCheckoutRequest.customer request) "email")
  && ToBoolean (JS.get (CreateCheckoutRequest.customer request) "name").

(** The configurations [validateConfig] lets through. *)
Definition config_accepted (config : OMPayConfig.t) : bool :=
  nonempty_string (OMPayConfig.clientId config)
  && nonempty_string (OMPayConfig.clientSecret config)
  && (negb (ToBoolean (OMPayConfig.environment config))
      || includes ["sandbox"; "production"] (OMPayConfig.environment config)).

(** The error of a local validation: nothing of the transport in it. *)
Definition local_validation_error (e : OMPayError.t) : Prop :=
  OMPayError.code e = VALIDATION_ERROR
  /\ OMPayError.statusCode e = None
  /\ OMPayError.response e = VUndefined
  /\ OMPayError.originalError e = None.



(** A gateway whose 2xx answers carry the body [null]. *)
Definition null_gateway : Axios.network :=
  fun _ =>
    Axios.Resolved
      {| AxiosResponse.status := 200%float; AxiosResponse.data := VNull |}.

(* ================================================================== *)
(** * Checks of the runtime fragment against known values *)
(* ================================================================== *)

Example sha256_abc :
  Crypto.hex_state (Crypto.sha256 (Crypto.bytes_of_string "abc"))
  = "ba7816bf8f01cfea414140de5dae2223b00361a396177a9cb410ff61f20015ad".
Proof. vm_compute. reflexivity. Qed.

(** RFC 4231, test case 2. *)
Example hmac_rfc4231_case2 :
  Crypto.digest_hex
    (Crypto.update (Crypto.createHmac_sha256 "Jefe")
                   "what do ya want for nothing?")
  = "5bdcc146bf60754e6a042426089575c75a003f089d2739839dec58b964ec3843".
Proof. vm_compute. reflexivity. Qed.

Example Number_toString_samples :
  map Number_toString
      [100%float; 0.5%float; 422%float; 1e21%float; (-0.000001)%float;
       123.456%float; 1e-7%float; (0.1 + 0.2)%float; 5e-324%float;
       1e-323%float; 9007199254740993%float; 123456789012345680000%float;
       1.7976931348623157e308%float; (0 / 0)%float; (-1 / 0)%float;
       (-0)%float]
  = ["100"; "0.5"; "422"; "1e+21"; "-0.000001"; "123.456"; "1e-7";
     "0.30000000000000004"; "5e-324"; "1e-323"; "9007199254740992";
     "123456789012345680000"; "1.7976931348623157e+308"; "NaN"; "-Infinity";
     "0"].
Proof. vm_compute. reflexivity. Qed.

Example ToString_samples :
  map ToString
      [VUndefined; VNull; VBool true; VNum 30000%float; VStr "o1";
       VArr [VNum 1%float; VNull; VArr [VStr "a"; VBool false]]; VObj []]
  = ["undefined"; "null"; "true"; "30000"; "o1"; "1,,a,false";
     "[object Object]"].
Proof. vm_compute. reflexivity. Qed.

(* ================================================================== *)
(** * Signature verification *)
(* ================================================================== *)

Lemma hex_state_length (s : Crypto.hash_state) :
  String.length (Crypto.hex_state s) = 64%nat.
Proof. reflexivity. Qed.

Lemma keyed_hash_length (secret message : string) :
  String.length (keyed_hash secret message) = 64%nat.
Proof. unfold keyed_hash, Crypto.digest_hex. apply hex_state_length. Qed.

Lemma keyed_hash_nonempty (secret message : string) :
  keyed_hash secret message <> "".
Proof.
  intro H. pose proof (keyed_hash_length secret message) as L.
  rewrite H in L. discriminate L.
Qed.

Lemma all_chars_append (p : ascii -> bool) (s t : string) :
  all_chars p (s ++ t) = all_chars p s && all_chars p t.
Proof.
  induction s as [| c rest IH]; [reflexivity |].
  cbn. rewrite IH. apply andb_assoc.
Qed.

Lemma hex_digit_lower (n : Z) :
  is_lower_hex (Crypto.hex_digit (n mod 16)) = true.
Proof.
  assert (H : 0 <= n mod 16 < 16) by (apply Z.mod_pos_bound; lia).
  assert (E : n mod 16 = 0 \/ n mod 16 = 1 \/ n mod 16 = 2 \/ n mod 16 = 3
              \/ n mod 16 = 4 \/ n mod 16 = 5 \/ n mod 16 = 6 \/ n mod 16 = 7
              \/ n mod 16 = 8 \/ n mod 16 = 9 \/ n mod 16 = 10
              \/ n mod 16 = 11 \/ n mod 16 = 12 \/ n mod 16 = 13
              \/ n mod 16 = 14 \/ n mod 16 = 15) by lia.
  repeat (destruct E as [-> | E]; [reflexivity |]).
  rewrite E. reflexivity.
Qed.

Lemma hex_word_lower (w : Z) : all_chars is_lower_hex (Crypto.hex_word w) = true.
Proof.
  unfold Crypto.hex_word. cbn [all_chars].
  rewrite !hex_digit_lower. reflexivity.
Qed.

Lemma keyed_hash_lowercase_hex (secret message : string) :
  all_chars is_lower_hex (keyed_hash secret message) = true.
Proof.
  unfold keyed_hash, Crypto.digest_hex, Crypto.hex_state.
  rewrite !all_chars_append, !hex_word_lower. reflexivity.
Qed.

Lemma nonempty_truthy (s : string) : s <> "" -> ToBoolean (VStr s) = true.
Proof.
  intro H. simpl. apply negb_true_iff. now apply String.eqb_neq.
Qed.

Lemma replace_at_differs (i : nat) (c c0 : ascii) (s : string) :
  String.get i s = Some c0 -> c <> c0 ->
  replace_at i c s <> s /\ replace_at i c s <> "".
Proof.
  revert i. induction s as [| a rest IH]; intros i Hget Hc.
  - destruct i; discriminate Hget.
  - destruct i as [| j]; simpl in *.
    + injection Hget as ->. split; [intro E; injection E as E'; now apply Hc | discriminate].
    + destruct (IH j Hget Hc) as [Hne _].
      split; [intro E; injection E as E'; now apply Hne | discriminate].
Qed.

(** With non-empty string arguments [verifySignature] does not throw: it
    compares the keyed hash of [O/P] with the signature. *)
Lemma verifySignature_on_strings (this : OMPayClient.t) (O P sig : string) :
  O <> "" -> P <> "" -> sig <> "" ->
  OMPayClient.verifySignature this (payload_of O P) (VStr sig)
  = Return (String.eqb
              (keyed_hash (OMPayClient.clientSecret this) (O ++ "/" ++ P)) sig).
Proof.
  intros HO HP Hs. unfold OMPayClient.verifySignature, payload_of.
  cbn [SignaturePayload.orderId SignaturePayload.paymentId].
  rewrite (nonempty_truthy O HO), (nonempty_truthy P HP), (nonempty_truthy sig Hs).
  reflexivity.
Qed.

Example sandbox_client_constructed :
  OMPayClient.new sandbox_config = Return sandbox_client.
Proof. reflexivity. Qed.

(** The signature test of the repository. *)
Example verifySignature_repository_test :
  OMPayClient.verifySignature sandbox_client
    (payload_of "wb-e883b28d-0cd3-455d-9903-ef5d3d8ddf27" "pay-123456789")
    (VStr "0ccf54972f430ffde8ee5f7f2a29ddcfa64969a3e6d56fd437249172842fb121")
  = Return true
  /\ OMPayClient.verifySignature sandbox_client
    (payload_of "wb-e883b28d-0cd3-455d-9903-ef5d3d8ddf27" "pay-123456789")
    (VStr "invalid-signature")
  = Return false
  (* the comparison is exact: the same digest in capitals is refused *)
  /\ OMPayClient.verifySignature sandbox_client
    (payload_of "wb-e883b28d-0cd3-455d-9903-ef5d3d8ddf27" "pay-123456789")
    (VStr "0CCF54972F430FFDE8EE5F7F2A29DDCFA64969A3E6D56FD437249172842FB121")
  = Return false
  (* empty arguments are refused with a validation error *)
  /\ OMPayClient.verifySignature sandbox_client (payload_of "" "pay-123456789")
       (VStr "some-signature")
     = Throw (OMPayClient.validation_error
                "orderId and paymentId are required for signature verification")
  /\ OMPayClient.verifySignature sandbox_client (payload_of "order-123" "pay-123")
       (VStr "")
     = Throw (OMPayClient.validation_error
                "signature is required and must be a string").
Proof. repeat split; vm_compute; reflexivity. Qed.

(** C1. Signature round trip: for every client (hence every clientSecret
    S) and all non-empty strings O and P, [verifySignature] on
    [{orderId: O, paymentId: P}] returns true for the lowercase-hex
    HMAC-SHA256 of [O/P] under S, and returns false for every non-empty
    signature string different from that digest; in particular for the
    digest with any one of its characters replaced by a different one. *)
Theorem verifySignature_round_trip
    (this : OMPayClient.t) (O P : string) :
  O <> "" -> P <> "" ->
  let digest := keyed_hash (OMPayClient.clientSecret this) (O ++ "/" ++ P) in
  OMPayClient.verifySignature this (payload_of O P) (VStr digest) = Return true
  /\ (forall sig : string,
        sig <> "" -> sig <> digest ->
        OMPayClient.verifySignature this (payload_of O P) (VStr sig)
        = Return false)
  /\ (forall (i : nat) (c c0 : ascii),
        String.get i digest = Some c0 -> c <> c0 ->
        OMPayClient.verifySignature this (payload_of O P)
          (VStr (replace_at i c digest))
        = Return false).
Proof.
  intros HO HP digest.
  assert (Hfalse : forall sig : string,
             sig <> "" -> sig <> digest ->
             OMPayClient.verifySignature this (payload_of O P) (VStr sig)
             = Return false).
  { intros sig Hs Hd.
    rewrite (verifySignature_on_strings this O P sig HO HP Hs).
    f_equal. apply String.eqb_neq. intro E. apply Hd. now symmetry. }
  split; [| split].
  - rewrite (verifySignature_on_strings this O P digest HO HP
               (keyed_hash_nonempty _ _)).
    f_equal. apply String.eqb_refl.
  - exact Hfalse.
  - intros i c c0 Hget Hc.
    destruct (replace_at_differs i c c0 digest Hget Hc) as [Hne Hnonempty].
    now apply Hfalse.
Qed.

Lemma verifySignature_round_trip_witness :
  OMPayClient.verifySignature sandbox_client
    (payload_of "order-123" "pay-123")
    (VStr (keyed_hash "my-super-secret-key" "order-123/pay-123"))
  = Return true
  /\ OMPayClient.verifySignature sandbox_client
       (payload_of "order-123" "pay-123") (VStr "invalid-signature")
     = Return false.
Proof.
  destruct (verifySignature_round_trip sandbox_client "order-123" "pay-123")
    as [Htrue [Hfalse _]]; [discriminate | discriminate |].
  split.
  - exact Htrue.
  - apply Hfalse; [discriminate |].
    intro E. apply (f_equal String.length) in E.
    rewrite keyed_hash_length in E. discriminate E.
Defined.

(** C8. Canonical-message collision: two payloads of non-empty strings
    whose [orderId + "/" + paymentId] strings coincide get the same answer
    from [verifySignature], whatever the signature. *)
Theorem verifySignature_canonical_collision
    (this : OMPayClient.t) (O1 P1 O2 P2 : string) (signature : value) :
  O1 <> "" -> P1 <> "" -> O2 <> "" -> P2 <> "" ->
  O1 ++ "/" ++ P1 = O2 ++ "/" ++ P2 ->
  OMPayClient.verifySignature this (payload_of O1 P1) signature
  = OMPayClient.verifySignature this (payload_of O2 P2) signature.
Proof.
  intros H1 H2 H3 H4 Hmsg.
  unfold OMPayClient.verifySignature, payload_of.
  cbn [SignaturePayload.orderId SignaturePayload.paymentId].
  rewrite (nonempty_truthy O1 H1), (nonempty_truthy P1 H2),
          (nonempty_truthy O2 H3), (nonempty_truthy P2 H4).
  cbn [ToString]. rewrite Hmsg. reflexivity.
Qed.

Lemma verifySignature_canonical_collision_witness :
  payload_of "a" "b/c" <> payload_of "a/b" "c"
  /\ forall signature : value,
       OMPayClient.verifySignature sandbox_client (payload_of "a" "b/c") signature
       = OMPayClient.verifySignature sandbox_client (payload_of "a/b" "c") signature.
Proof.
  split.
  - discriminate.
  - intro signature.
    apply (verifySignature_canonical_collision sandbox_client
             "a" "b/c" "a/b" "c" signature);
      [discriminate | discriminate | discriminate | discriminate | reflexivity].
Defined.

(** A constructed client holds the strings the configuration supplied. *)
Lemma new_inversion (config : OMPayConfig.t) (this : OMPayClient.t) :
  OMPayClient.new config = Return this ->
  OMPayClient.validateConfig config = Return tt
  /\ OMPayClient.clientId this = as_string (OMPayConfig.clientId config)
  /\ OMPayClient.clientSecret this = as_string (OMPayConfig.clientSecret config)
  /\ OMPayClient.environment this
     = coalesce (OMPayConfig.environment config) (VStr "sandbox")
  /\ Axios.timeout (OMPayClient.httpClient this)
     = coalesce (OMPayConfig.timeout config) (VNum DEFAULT_TIMEOUT).
Proof.
  unfold OMPayClient.new.
  destruct (OMPayClient.validateConfig config) as [[] | e]; cbn [bind].
  - intro H. injection H as <-. repeat split.
  - discriminate.
Qed.

Lemma verifySignature_same_secret (c1 c2 : OMPayClient.t)
    (payload : SignaturePayload.t) (signature : value) :
  OMPayClient.clientSecret c1 = OMPayClient.clientSecret c2 ->
  OMPayClient.verifySignature c1 payload signature
  = OMPayClient.verifySignature c2 payload signature.
Proof.
  intro H. unfold OMPayClient.verifySignature. rewrite H. reflexivity.
Qed.

(** C10. [verifySignature] is a function of the client's clientSecret, the
    payload's orderId and paymentId and the signature alone: it is given by
    one function of those four, for every client (so equal inputs give
    equal answers, call after call: it takes no network and keeps no
    state); and two clients constructed from configurations with the same
    clientSecret, whatever their clientId, environment and timeout, return
    equal results on every payload and signature. *)
Theorem verifySignature_depends_on_secret_only :
  (exists f : string -> value -> value -> value -> result bool,
      forall (this : OMPayClient.t) (payload : SignaturePayload.t)
             (signature : value),
        OMPayClient.verifySignature this payload signature
        = f (OMPayClient.clientSecret this)
            (SignaturePayload.orderId payload)
            (SignaturePayload.paymentId payload) signature)
  /\ (forall (config1 config2 : OMPayConfig.t) (c1 c2 : OMPayClient.t),
        OMPayClient.new config1 = Return c1 ->
        OMPayClient.new config2 = Return c2 ->
        OMPayConfig.clientSecret config1 = OMPayConfig.clientSecret config2 ->
        forall (payload : SignaturePayload.t) (signature : value),
          OMPayClient.verifySignature c1 payload signature
          = OMPayClient.verifySignature c2 payload signature).
Proof.
  split.
  - exists (fun secret orderId paymentId signature =>
              OMPayClient.verifySignature
                {| OMPayClient.httpClient := OMPayClient.httpClient sandbox_client;
                   OMPayClient.clientId := "";
                   OMPayClient.clientSecret := secret;
                   OMPayClient.environment := VUndefined |}
                {| SignaturePayload.orderId := orderId;
                   SignaturePayload.paymentId := paymentId |}
                signature).
    intros this [orderId paymentId] signature. reflexivity.
  - intros config1 config2 c1 c2 H1 H2 Hsecret payload signature.
    apply verifySignature_same_secret.
    destruct (new_inversion _ _ H1) as (_ & _ & -> & _).
    destruct (new_inversion _ _ H2) as (_ & _ & -> & _).
    now rewrite Hsecret.
Qed.

Lemma verifySignature_depends_on_secret_only_witness :
  OMPayClient.clientId sandbox_client <> OMPayClient.clientId production_client
  /\ OMPayClient.environment sandbox_client
     <> OMPayClient.environment production_client
  /\ Axios.timeout (OMPayClient.httpClient sandbox_client)
     <> Axios.timeout (OMPayClient.httpClient production_client)
  /\ forall (payload : SignaturePayload.t) (signature : value),
       OMPayClient.verifySignature sandbox_client payload signature
       = OMPayClient.verifySignature production_client payload signature.
Proof.
  split; [discriminate | split; [discriminate | split; [discriminate |]]].
  destruct verifySignature_depends_on_secret_only as [_ Hsame].
  apply (Hsame sandbox_config production_config
               sandbox_client production_client);
    reflexivity.
Defined.

(** C3. For a payload of non-empty orderId and paymentId and a non-empty
    signature string, [verifySignature] returns a boolean;
    [verifySignatureOrThrow] returns normally exactly when that boolean is
    true, and when it is false throws the one fixed [signatureMismatch]
    error: code SIGNATURE_MISMATCH, a constant message, no status code, no
    response body, no original error, nothing computed from the payload. *)
Theorem verifySignatureOrThrow_spec
    (this : OMPayClient.t) (O P sig : string) :
  O <> "" -> P <> "" -> sig <> "" ->
  (exists b : bool,
      OMPayClient.verifySignature this (payload_of O P) (VStr sig) = Return b)
  /\ (OMPayClient.verifySignatureOrThrow this (payload_of O P) (VStr sig)
      = Return tt
      <-> OMPayClient.verifySignature this (payload_of O P) (VStr sig)
          = Return true)
  /\ (OMPayClient.verifySignature this (payload_of O P) (VStr sig)
      = Return false ->
      OMPayClient.verifySignatureOrThrow this (payload_of O P) (VStr sig)
      = Throw OMPayError.signatureMismatch)
  /\ OMPayError.signatureMismatch
     = {| OMPayError.name := "OMPayError";
          OMPayError.code := SIGNATURE_MISMATCH;
          OMPayError.message :=
            "Payment signature verification failed. The signature does not match.";
          OMPayError.statusCode := None;
          OMPayError.response := VUndefined;
          OMPayError.originalError := None |}.
Proof.
  intros HO HP Hs.
  unfold OMPayClient.verifySignatureOrThrow.
  rewrite (verifySignature_on_strings this O P sig HO HP Hs).
  cbn [bind].
  destruct (String.eqb _ sig); cbn [negb throw_if].
  - repeat split; eauto; discriminate.
  - repeat split; eauto; discriminate.
Qed.

Lemma verifySignatureOrThrow_spec_witness :
  OMPayClient.verifySignatureOrThrow sandbox_client
    (payload_of "order-123" "pay-123") (VStr "invalid-signature")
  = Throw OMPayError.signatureMismatch.
Proof.
  destruct (verifySignatureOrThrow_spec sandbox_client
              "order-123" "pay-123" "invalid-signature")
    as (_ & _ & Hthrow & _); [discriminate | discriminate | discriminate |].
  apply Hthrow. vm_compute. reflexivity.
Defined.

(* ================================================================== *)
(** * Error classification *)
(* ================================================================== *)




Example fromAxiosError_samples :
  OMPayError.fromAxiosError server_error
  = {| OMPayError.name := "OMPayError";
       OMPayError.code := API_ERROR;
       OMPayError.message := "boom";
       OMPayError.statusCode := Some 500%float;
       OMPayError.response := VObj [("message", VStr "boom")];
       OMPayError.originalError := Some server_error |}
  /\ OMPayError.message
       (OMPayError.fromAxiosError
          {| AxiosError.response :=
               Some {| AxiosResponse.status := 503%float;
                       AxiosResponse.data := VNull |};
             AxiosError.code := None;
             AxiosError.request := VObj [];
             AxiosError.message := "" |})
     = "API error: 503".
Proof. split; vm_compute; reflexivity. Qed.


(* ================================================================== *)
(** * Checkout *)
(* ================================================================== *)

Lemma amount_check (amount : value) :
  negb (String.eqb (typeof amount) "number") ||
  match amount with
  | VNum a => (a <=? 0)%float
  | _ => false
  end = amount_rejected amount.
Proof. destruct amount; reflexivity. Qed.

Lemma currency_check (currency : value) :
  negb (ToBoolean currency) || negb (String.eqb (typeof currency) "string")
  = currency_rejected currency.
Proof.
  destruct currency as [| | b | n | s | l | o]; try reflexivity.
  - destruct b; reflexivity.
  - cbn. apply orb_true_r.
  - cbn. rewrite negb_involutive. apply orb_false_r.
Qed.

Lemma empty_field_falsy (customer : value) (k : string) :
  empty_field customer k = true -> ToBoolean (JS.get customer k) = false.
Proof.
  unfold empty_field.
  destruct (JS.get customer k); try discriminate; try reflexivity.
  cbn. intros ->. reflexivity.
Qed.

(** What [validateCheckoutRequest] does, check by check. *)
Lemma validateCheckoutRequest_cases (request : CreateCheckoutRequest.t) :
  OMPayClient.validateCheckoutRequest request =
  if amount_rejected (CreateCheckoutRequest.amount request) then
    Throw (OMPayClient.validation_error "amount must be a positive number")
  else if currency_rejected (CreateCheckoutRequest.currency request) then
    Throw (OMPayClient.validation_error
             "currency is required and must be a string")
  else if negb (ToBoolean (CreateCheckoutRequest.customer request)) then
    Throw (OMPayClient.validation_error "customer information is required")
  else if negb (ToBoolean (JS.get (CreateCheckoutRequest.customer request) "phone"))
          || negb (ToBoolean (JS.get (CreateCheckoutRequest.customer request) "email"))
          || negb (ToBoolean (JS.get (CreateCheckoutRequest.customer request) "name"))
  then
    Throw (OMPayClient.validation_error
             "customer phone, email, and name are required")
  else Return tt.
Proof.
  unfold OMPayClient.validateCheckoutRequest.
  rewrite amount_check, currency_check.
  destruct (amount_rejected _); [reflexivity |].
  destruct (currency_rejected _); [reflexivity |].
  destruct (negb (ToBoolean (CreateCheckoutRequest.customer request)));
    [reflexivity |].
  cbn [throw_if bind].
  destruct (_ || _ || _); reflexivity.
Qed.

Section Checkout.

(** Any client, against any gateway. *)
Variable this : OMPayClient.t.
Variable net : Axios.network.

Lemma createCheckout_throws
    (request : CreateCheckoutRequest.t) (e : OMPayError.t) :
  OMPayClient.validateCheckoutRequest request = Throw e ->
  OMPayClient.createCheckout this net request = ([], Throw e).
Proof. intro H. unfold OMPayClient.createCheckout. now rewrite H. Qed.

(** C5. [createCheckout] on an invalid request: the promise is rejected
    with a VALIDATION_ERROR and the list of calls issued is empty. The
    checks run in the order amount, currency, customer presence, customer
    fields: each message below is the one of the first failing check. *)
Theorem createCheckout_validation (request : CreateCheckoutRequest.t) :
  (* every rejected request: a validation error and no call *)
  (amount_rejected (CreateCheckoutRequest.amount request) = true
   \/ currency_rejected (CreateCheckoutRequest.currency request) = true
   \/ nullish (CreateCheckoutRequest.customer request) = true
   \/ empty_field (CreateCheckoutRequest.customer request) "phone" = true
   \/ empty_field (CreateCheckoutRequest.customer request) "email" = true
   \/ empty_field (CreateCheckoutRequest.customer request) "name" = true ->
   exists e : OMPayError.t,
     OMPayClient.createCheckout this net request = ([], Throw e)
     /\ OMPayError.code e = VALIDATION_ERROR)
  (* amount first *)
  /\ (amount_rejected (CreateCheckoutRequest.amount request) = true ->
      OMPayClient.createCheckout this net request
      = ([], Throw (OMPayClient.validation_error
                      "amount must be a positive number")))
  (* then currency *)
  /\ (amount_rejected (CreateCheckoutRequest.amount request) = false ->
      currency_rejected (CreateCheckoutRequest.currency request) = true ->
      OMPayClient.createCheckout this net request
      = ([], Throw (OMPayClient.validation_error
                      "currency is required and must be a string")))
  (* then the presence of customer *)
  /\ (amount_rejected (CreateCheckoutRequest.amount request) = false ->
      currency_rejected (CreateCheckoutRequest.currency request) = false ->
      nullish (CreateCheckoutRequest.customer request) = true ->
      OMPayClient.createCheckout this net request
      = ([], Throw (OMPayClient.validation_error
                      "customer information is required")))
  (* then the three fields of a customer object *)
  /\ (amount_rejected (CreateCheckoutRequest.amount request) = false ->
      currency_rejected (CreateCheckoutRequest.currency request) = false ->
      forall fields : object,
        CreateCheckoutRequest.customer request = VObj fields ->
        empty_field (VObj fields) "phone" = true
        \/ empty_field (VObj fields) "email" = true
        \/ empty_field (VObj fields) "name" = true ->
        OMPayClient.createCheckout this net request
        = ([], Throw (OMPayClient.validation_error
                        "customer phone, email, and name are required"))).
Proof.
  assert (Hfields : forall c : value,
             empty_field c "phone" = true \/ empty_field c "email" = true
             \/ empty_field c "name" = true ->
             negb (ToBoolean (JS.get c "phone"))
             || negb (ToBoolean (JS.get c "email"))
             || negb (ToBoolean (JS.get c "name")) = true).
  { intros c [H | [H | H]]; apply empty_field_falsy in H; rewrite H;
      cbn [negb]; rewrite ?orb_true_r; reflexivity. }
  repeat match goal with |- _ /\ _ => split end.
  - intro Hbad.
    assert (Hex : exists msg : string,
               OMPayClient.validateCheckoutRequest request
               = Throw (OMPayClient.validation_error msg)).
    { rewrite validateCheckoutRequest_cases.
      destruct (amount_rejected _); [eauto |].
      destruct (currency_rejected _); [eauto |].
      destruct (negb (ToBoolean (CreateCheckoutRequest.customer request)))
        eqn:Hc; [eauto |].
      destruct Hbad as [H | [H | [H | H]]]; try discriminate H.
      - destruct (CreateCheckoutRequest.customer request); discriminate.
      - rewrite (Hfields _ H). eauto. }
    destruct Hex as [msg Hmsg].
    exists (OMPayClient.validation_error msg). split; [| reflexivity].
    now apply createCheckout_throws.
  - intro Ha. apply createCheckout_throws.
    rewrite validateCheckoutRequest_cases, Ha. reflexivity.
  - intros Ha Hc. apply createCheckout_throws.
    rewrite validateCheckoutRequest_cases, Ha, Hc. reflexivity.
  - intros Ha Hc Hn. apply createCheckout_throws.
    rewrite validateCheckoutRequest_cases, Ha, Hc.
    destruct (CreateCheckoutRequest.customer request); try discriminate Hn;
      reflexivity.
  - intros Ha Hc fields Hobj Hempty. apply createCheckout_throws.
    rewrite validateCheckoutRequest_cases, Ha, Hc, Hobj.
    cbn [ToBoolean negb]. rewrite (Hfields _ Hempty). reflexivity.
Qed.

(** C6, amended. For every valid request [createCheckout] issues exactly
    one call, a POST of a flat payload to the order-creation path. The
    payload's properties are, in order, amount, currency, uiMode,
    redirectType, phone, email, name, then orderReference exactly when the
    request's orderReference is truthy (provided and not the empty string)
    and metadata exactly when the request's metadata is truthy (any object,
    the empty one included). amount, currency and the two optional
    properties carry the request's values; uiMode and redirectType default
    to "checkout" and "redirect" when the request's value is undefined or
    null; phone, email and name are the customer's. *)
Theorem createCheckout_payload (request : CreateCheckoutRequest.t) :
  OMPayClient.validateCheckoutRequest request = Return tt ->
  exists payload : object,
    fst (OMPayClient.createCheckout this net request)
    = [Axios.post (OMPayClient.httpClient this) path_create_checkout payload]
    /\ map fst payload = payload_keys request
    /\ NoDup (map fst payload)
    /\ lookup "amount" payload = CreateCheckoutRequest.amount request
    /\ lookup "currency" payload = CreateCheckoutRequest.currency request
    /\ lookup "uiMode" payload
       = (if nullish (CreateCheckoutRequest.uiMode request)
          then VStr "checkout" else CreateCheckoutRequest.uiMode request)
    /\ lookup "redirectType" payload
       = (if nullish (CreateCheckoutRequest.redirectType request)
          then VStr "redirect" else CreateCheckoutRequest.redirectType request)
    /\ lookup "phone" payload
       = JS.get (CreateCheckoutRequest.customer request) "phone"
    /\ lookup "email" payload
       = JS.get (CreateCheckoutRequest.customer request) "email"
    /\ lookup "name" payload
       = JS.get (CreateCheckoutRequest.customer request) "name"
    /\ (In "orderReference" (map fst payload)
        <-> ToBoolean (CreateCheckoutRequest.orderReference request) = true)
    /\ (ToBoolean (CreateCheckoutRequest.orderReference request) = true ->
        lookup "orderReference" payload
        = CreateCheckoutRequest.orderReference request)
    /\ (In "metadata" (map fst payload)
        <-> ToBoolean (CreateCheckoutRequest.metadata request) = true)
    /\ (ToBoolean (CreateCheckoutRequest.metadata request) = true ->
        lookup "metadata" payload = CreateCheckoutRequest.metadata request).
Proof.
  intro Hvalid.
  exists (OMPayClient.checkout_payload request).
  unfold OMPayClient.createCheckout. rewrite Hvalid.
  unfold OMPayClient.checkout_payload, payload_keys, spread_if, coalesce.
  cbn [fst].
  destruct (ToBoolean (CreateCheckoutRequest.orderReference request));
    destruct (ToBoolean (CreateCheckoutRequest.metadata request));
    cbn [app map fst lookup String.eqb Ascii.eqb Bool.eqb];
    (repeat match goal with |- _ /\ _ => split end);
    try reflexivity;
    try (intros; reflexivity);
    try (repeat constructor; cbn; intuition discriminate);
    try (split; [intros _; reflexivity | intros _; cbn; tauto]);
    try (split; [cbn; intuition discriminate | discriminate]).
Qed.

End Checkout.

Lemma createCheckout_validation_witness :
  OMPayClient.createCheckout sandbox_client pending_gateway
    (checkout_request (VNum 0%float) (VStr "OMR") test_customer VUndefined)
  = ([], Throw (OMPayClient.validation_error "amount must be a positive number"))
  /\ OMPayClient.createCheckout sandbox_client pending_gateway
       (checkout_request (VNum 100%float) (VStr "OMR")
          (VObj [("phone", VStr "+96891234567"); ("email", VStr "");
                 ("name", VStr "Test User")])
          VUndefined)
     = ([], Throw (OMPayClient.validation_error
                     "customer phone, email, and name are required")).
Proof.
  split.
  - destruct (createCheckout_validation sandbox_client pending_gateway
                (checkout_request (VNum 0%float) (VStr "OMR") test_customer
                   VUndefined))
      as (_ & Hamount & _).
    apply Hamount. reflexivity.
  - destruct (createCheckout_validation sandbox_client pending_gateway
                (checkout_request (VNum 100%float) (VStr "OMR")
                   (VObj [("phone", VStr "+96891234567"); ("email", VStr "");
                          ("name", VStr "Test User")])
                   VUndefined))
      as (_ & _ & _ & _ & Hfields).
    apply (Hfields eq_refl eq_refl _ eq_refl).
    right. left. reflexivity.
Defined.

(** The example scenario of the specification. *)
Example createCheckout_scenario :
  OMPayClient.createCheckout sandbox_client pending_gateway
    (checkout_request (VNum 100%float) (VStr "OMR") test_customer VUndefined)
  = ([Axios.post (OMPayClient.httpClient sandbox_client) path_create_checkout
        [("amount", VNum 100%float); ("currency", VStr "OMR");
         ("uiMode", VStr "checkout"); ("redirectType", VStr "redirect");
         ("phone", VStr "+96891234567"); ("email", VStr "test@example.com");
         ("name", VStr "Test User")]],
     Return
       {| CreateCheckoutResponse.orderId := "o1";
          CreateCheckoutResponse.checkoutUrl := VUndefined;
          CreateCheckoutResponse.status := "pending";
          CreateCheckoutResponse.data :=
            VObj [("orderId", VStr "o1"); ("status", VStr "pending")] |}).
Proof. reflexivity. Qed.

(** C6, against the claim as stated: a valid request that provides the
    empty string as orderReference is sent without an [orderReference]
    property. *)
Lemma createCheckout_omits_empty_orderReference :
  CreateCheckoutRequest.orderReference
    (checkout_request (VNum 100%float) (VStr "OMR") test_customer (VStr ""))
  = VStr ""
  /\ OMPayClient.validateCheckoutRequest
       (checkout_request (VNum 100%float) (VStr "OMR") test_customer (VStr ""))
     = Return tt
  /\ fst (OMPayClient.createCheckout sandbox_client pending_gateway
            (checkout_request (VNum 100%float) (VStr "OMR") test_customer
               (VStr "")))
     = [Axios.post (OMPayClient.httpClient sandbox_client) path_create_checkout
          [("amount", VNum 100%float); ("currency", VStr "OMR");
           ("uiMode", VStr "checkout"); ("redirectType", VStr "redirect");
           ("phone", VStr "+96891234567"); ("email", VStr "test@example.com");
           ("name", VStr "Test User")]]
  /\ ~ In "orderReference"
         ["amount"; "currency"; "uiMode"; "redirectType"; "phone"; "email";
          "name"].
Proof.
  split; [reflexivity | split; [reflexivity | split; [reflexivity |]]].
  cbn. intuition discriminate.
Qed.

Lemma createCheckout_payload_witness :
  exists payload : object,
    fst (OMPayClient.createCheckout sandbox_client pending_gateway
           {| CreateCheckoutRequest.amount := VNum 100%float;
              CreateCheckoutRequest.currency := VStr "OMR";
              CreateCheckoutRequest.uiMode := VUndefined;
              CreateCheckoutRequest.redirectType := VStr "post";
              CreateCheckoutRequest.customer := test_customer;
              CreateCheckoutRequest.orderReference := VStr "ORDER-123";
              CreateCheckoutRequest.metadata := VObj [] |})
    = [Axios.post (OMPayClient.httpClient sandbox_client) path_create_checkout
         payload]
    /\ map fst payload
       = ["amount"; "currency"; "uiMode"; "redirectType"; "phone"; "email";
          "name"; "orderReference"; "metadata"].
Proof.
  destruct (createCheckout_payload sandbox_client pending_gateway
              {| CreateCheckoutRequest.amount := VNum 100%float;
                 CreateCheckoutRequest.currency := VStr "OMR";
                 CreateCheckoutRequest.uiMode := VUndefined;
                 CreateCheckoutRequest.redirectType := VStr "post";
                 CreateCheckoutRequest.customer := test_customer;
                 CreateCheckoutRequest.orderReference := VStr "ORDER-123";
                 CreateCheckoutRequest.metadata := VObj [] |}
              eq_refl)
    as (payload & Hsent & Hkeys & _).
  exists payload. split; [exact Hsent | exact Hkeys].
Defined.

(* ================================================================== *)
(** * Status check *)
(* ================================================================== *)




(** The orderId falls back to the input when the body has none, and the
    empty orderId is rejected before any call. *)
Example checkStatus_samples :
  (exists r : OrderStatusResponse.t,
      snd (OMPayClient.checkStatus sandbox_client
             (fun _ => Axios.Resolved
                         {| AxiosResponse.status := 200%float;
                            AxiosResponse.data :=
                              VObj [("orderId", VNull);
                                    ("amount", VNum 12.5%float)] |})
             (VStr "order-9"))
      = Return r
      /\ OrderStatusResponse.orderId r = "order-9"
      /\ OrderStatusResponse.status r = VUndefined)
  /\ OMPayClient.checkStatus sandbox_client pending_gateway (VStr "")
     = ([], Throw (OMPayClient.validation_error
                     "orderId is required and must be a string"))
  /\ (exists e : OMPayError.t,
         snd (OMPayClient.checkStatus sandbox_client
                (fun _ => Axios.Resolved
                            {| AxiosResponse.status := 200%float;
                               AxiosResponse.data := VNull |})
                (VStr "order-9"))
         = Throw e
         /\ OMPayError.code e = UNKNOWN_ERROR).
Proof.
  split; [| split].
  - eexists. split; [reflexivity | split; reflexivity].
  - reflexivity.
  - eexists. split; reflexivity.
Qed.

(* ================================================================== *)
(** * Construction *)
(* ================================================================== *)

Lemma string_check (s : string) :
  s <> "" ->
  negb (ToBoolean (VStr s)) || negb (String.eqb (typeof (VStr s)) "string")
  = false.
Proof. intro H. rewrite (nonempty_truthy s H). reflexivity. Qed.

Lemma validateConfig_accepts (id secret : string) (environment timeout : value) :
  id <> "" -> secret <> "" -> valid_environment environment ->
  OMPayClient.validateConfig
    (config_of (VStr id) (VStr secret) environment timeout)
  = Return tt.
Proof.
  intros Hid Hsecret Henv. unfold OMPayClient.validateConfig, config_of.
  cbn [OMPayConfig.clientId OMPayConfig.clientSecret OMPayConfig.environment].
  rewrite (string_check id Hid), (string_check secret Hsecret).
  destruct Henv as [-> | [-> | ->]]; reflexivity.
Qed.

(** Valid configurations construct a client, without any call (the
    constructor takes no network), whose accessors give the resolved
    environment and its base URL. *)
Lemma new_valid (id secret : string) (environment timeout : value) :
  id <> "" -> secret <> "" -> valid_environment environment ->
  exists this : OMPayClient.t,
    OMPayClient.new (config_of (VStr id) (VStr secret) environment timeout)
    = Return this
    /\ OMPayClient.getClientId this = id
    /\ OMPayClient.getEnvironment this
       = (if nullish environment then VStr "sandbox" else environment)
    /\ OMPayClient.getBaseUrl this
       = (if string_strict_equals "production" environment
          then VStr "https://api.gateway.ompay.com"
          else VStr "https://api.uat.gateway.ompay.com")
    /\ Axios.baseURL (OMPayClient.httpClient this) = OMPayClient.getBaseUrl this
    /\ Axios.auth (OMPayClient.httpClient this) = (VStr id, VStr secret)
    /\ Axios.timeout (OMPayClient.httpClient this)
       = coalesce timeout (VNum DEFAULT_TIMEOUT).
Proof.
  intros Hid Hsecret Henv. unfold OMPayClient.new.
  rewrite (validateConfig_accepts id secret environment timeout Hid Hsecret Henv).
  cbn [bind]. eexists. split; [reflexivity |].
  destruct Henv as [-> | [-> | ->]]; repeat split.
Qed.

(** A missing clientId or clientSecret, and any truthy environment other
    than the two names, make construction fail with a VALIDATION_ERROR. *)
Lemma new_rejects (config : OMPayConfig.t) :
  missing (OMPayConfig.clientId config) = true
  \/ missing (OMPayConfig.clientSecret config) = true
  \/ (ToBoolean (OMPayConfig.environment config) = true
      /\ OMPayConfig.environment config <> VStr "sandbox"
      /\ OMPayConfig.environment config <> VStr "production") ->
  exists e : OMPayError.t,
    OMPayClient.new config = Throw e /\ OMPayError.code e = VALIDATION_ERROR.
Proof.
  assert (Hmissing : forall v : value,
             missing v = true -> negb (ToBoolean v) = true).
  { intros v. destruct v; try discriminate; try reflexivity.
    cbn. intros ->. reflexivity. }
  intro Hbad.
  assert (Hex : exists msg : string,
             OMPayClient.validateConfig config
             = Throw (OMPayClient.validation_error msg)).
  { unfold OMPayClient.validateConfig.
    destruct (negb (ToBoolean (OMPayConfig.clientId config)) || _) eqn:H1;
      cbn [throw_if bind]; [eauto |].
    destruct (negb (ToBoolean (OMPayConfig.clientSecret config)) || _) eqn:H2;
      cbn [throw_if bind]; [eauto |].
    apply orb_false_elim in H1, H2.
    destruct Hbad as [H | [H | (Ht & Hs & Hp)]].
    - apply Hmissing in H. destruct H1 as [H1 _]. congruence.
    - apply Hmissing in H. destruct H2 as [H2 _]. congruence.
    - rewrite Ht.
      assert (Hin : includes ["sandbox"; "production"]
                             (OMPayConfig.environment config) = false).
      { destruct (OMPayConfig.environment config) as [| | b | n | s | l | o];
          try reflexivity.
        unfold includes, existsb, string_strict_equals.
        apply orb_false_intro; [| apply orb_false_intro; [| reflexivity]];
          apply String.eqb_neq; congruence. }
      rewrite Hin. cbn. eauto. }
  destruct Hex as [msg Hmsg]. unfold OMPayClient.new. rewrite Hmsg.
  exists (OMPayClient.validation_error msg). split; reflexivity.
Qed.

(** C7, at the failing input: the configuration
    [{clientId: "test-id", clientSecret: "test-secret", environment: ""}]
    supplies an environment that is neither "sandbox" nor "production", and
    yet construction succeeds, with the empty string as environment and no
    base URL. *)
Theorem new_accepts_empty_environment :
  exists this : OMPayClient.t,
    OMPayClient.new
      (config_of (VStr "test-id") (VStr "test-secret") (VStr "") VUndefined)
    = Return this
    /\ OMPayClient.getEnvironment this = VStr ""
    /\ OMPayClient.getBaseUrl this = VUndefined
    /\ Axios.baseURL (OMPayClient.httpClient this) = VUndefined.
Proof. eexists. repeat split. Qed.

(** C9. The timeout is not validated: with a non-empty string clientId
    and clientSecret and a valid (or omitted) environment, construction
    succeeds whatever value the configuration gives as timeout, and the
    transport is created with that very value ([timeout ?? 30000]: only an
    undefined or null timeout is replaced, by the default); so with every
    number, zero, negative numbers and NaN included. *)
Theorem timeout_not_validated
    (id secret : string) (environment timeout : value) :
  id <> "" -> secret <> "" -> valid_environment environment ->
  exists this : OMPayClient.t,
    OMPayClient.new (config_of (VStr id) (VStr secret) environment timeout)
    = Return this
    /\ Axios.timeout (OMPayClient.httpClient this)
       = coalesce timeout (VNum DEFAULT_TIMEOUT)
    /\ (nullish timeout = false ->
        Axios.timeout (OMPayClient.httpClient this) = timeout)
    /\ (forall n : number,
          timeout = VNum n ->
          Axios.timeout (OMPayClient.httpClient this) = VNum n).
Proof.
  intros Hid Hsecret Henv.
  destruct (new_valid id secret environment timeout Hid Hsecret Henv)
    as (this & Hnew & _ & _ & _ & _ & _ & Htimeout).
  exists this. split; [exact Hnew | split; [exact Htimeout | split]].
  - intro Hn. rewrite Htimeout. unfold coalesce. now rewrite Hn.
  - intros n ->. exact Htimeout.
Qed.

Lemma timeout_not_validated_witness :
  exists this : OMPayClient.t,
    OMPayClient.new
      (config_of (VStr "c1") (VStr "s1") VUndefined (VNum (-5)%float))
    = Return this
    /\ Axios.timeout (OMPayClient.httpClient this) = VNum (-5)%float.
Proof.
  destruct (timeout_not_validated "c1" "s1" VUndefined (VNum (-5)%float))
    as (this & Hnew & _ & _ & Hnum);
    [discriminate | discriminate | left; reflexivity |].
  exists this. split; [exact Hnew | now apply Hnum].
Defined.

Example timeout_zero_and_default :
  (exists this : OMPayClient.t,
      OMPayClient.new (config_of (VStr "c1") (VStr "s1") (VStr "production")
                         (VNum 0%float))
      = Return this
      /\ Axios.timeout (OMPayClient.httpClient this) = VNum 0%float)
  /\ (exists this : OMPayClient.t,
         OMPayClient.new (config_of (VStr "c1") (VStr "s1") VUndefined VUndefined)
         = Return this
         /\ Axios.timeout (OMPayClient.httpClient this) = VNum 30000%float).
Proof. split; eexists; split; reflexivity. Qed.


(* ================================================================== *)
(** * Further properties: the two gateway operations *)
(* ================================================================== *)

Lemma nonempty_string_check (v : value) :
  negb (ToBoolean v) || negb (String.eqb (typeof v) "string")
  = negb (nonempty_string v).
Proof.
  destruct v as [| | b | n | s | l | o]; try reflexivity.
  - destruct b; reflexivity.
  - cbn. apply orb_true_r.
  - cbn. apply orb_false_r.
Qed.

Lemma currency_rejected_nonempty (v : value) :
  currency_rejected v = negb (nonempty_string v).
Proof. destruct v; try reflexivity. cbn. now rewrite negb_involutive. Qed.

Lemma validation_error_is_local (msg : string) :
  local_validation_error (OMPayClient.validation_error msg).
Proof. repeat split. Qed.

(** [validateCheckoutRequest] returns exactly on the accepted requests and
    throws a validation error on the others. *)
Lemma validateCheckoutRequest_decides (request : CreateCheckoutRequest.t) :
  (checkout_accepted request = true ->
   OMPayClient.validateCheckoutRequest request = Return tt)
  /\ (checkout_accepted request = false ->
      exists msg : string,
        OMPayClient.validateCheckoutRequest request
        = Throw (OMPayClient.validation_error msg)).
Proof.
  rewrite validateCheckoutRequest_cases. unfold checkout_accepted.
  rewrite currency_rejected_nonempty.
  destruct (amount_rejected _); cbn [negb andb];
    [split; [discriminate | eauto] |].
  destruct (nonempty_string _); cbn [negb andb];
    [| split; [discriminate | eauto]].
  destruct (ToBoolean (CreateCheckoutRequest.customer request)); cbn [negb andb];
    [| split; [discriminate | eauto]].
  destruct (ToBoolean (JS.get _ "phone")), (ToBoolean (JS.get _ "email")),
    (ToBoolean (JS.get _ "name")); cbn [negb andb orb];
    split; try discriminate; eauto.
Qed.

(** X1. [checkStatus] issues no call and rejects with the validation error
    "orderId is required and must be a string" unless the orderId is a
    non-empty string (a number, an object, null or the empty string are all
    refused); for a non-empty string it issues exactly one call, a GET of
    the status path without body, whose only query parameter is that
    orderId, unchanged. *)
Theorem checkStatus_calls
    (this : OMPayClient.t) (net : Axios.network) (orderId : value) :
  (nonempty_string orderId = false ->
   OMPayClient.checkStatus this net orderId
   = ([], Throw (OMPayClient.validation_error
                   "orderId is required and must be a string")))
  /\ (nonempty_string orderId = true ->
      fst (OMPayClient.checkStatus this net orderId)
      = [ {| Axios.via := OMPayClient.httpClient this;
             Axios.verb := Axios.GET;
             Axios.url := "/nac/api/v1/pg/orders/check-status";
             Axios.body := None;
             Axios.params := [("orderId", orderId)] |} ]).
Proof.
  unfold OMPayClient.checkStatus. rewrite nonempty_string_check.
  split; intros ->; reflexivity.
Qed.

Lemma checkStatus_calls_witness :
  OMPayClient.checkStatus sandbox_client pending_gateway (VNum 42%float)
  = ([], Throw (OMPayClient.validation_error
                  "orderId is required and must be a string"))
  /\ List.length
       (fst (OMPayClient.checkStatus sandbox_client pending_gateway
               (VStr "order-9")))
     = 1%nat.
Proof.
  destruct (checkStatus_calls sandbox_client pending_gateway (VNum 42%float))
    as [Hrefused _].
  destruct (checkStatus_calls sandbox_client pending_gateway (VStr "order-9"))
    as [_ Hsent].
  split.
  - apply Hrefused. reflexivity.
  - rewrite Hsent; reflexivity.
Defined.

(** X2. [createCheckout] issues exactly one call, the POST of the payload
    to the order-creation path, when the amount is a number that is not
    [<= 0] (so NaN and Infinity pass), the currency a non-empty string and
    the customer truthy with truthy phone, email and name; on every other
    request it issues no call and rejects with a validation error that has
    no status code, no response and no original error. *)
Theorem createCheckout_calls
    (this : OMPayClient.t) (net : Axios.network)
    (request : CreateCheckoutRequest.t) :
  (checkout_accepted request = true ->
   fst (OMPayClient.createCheckout this net request)
   = [ {| Axios.via := OMPayClient.httpClient this;
          Axios.verb := Axios.POST;
          Axios.url := "/nac/api/v1/pg/orders/create-checkout";
          Axios.body := Some (OMPayClient.checkout_payload request);
          Axios.params := [] |} ])
  /\ (checkout_accepted request = false ->
      exists e : OMPayError.t,
        OMPayClient.createCheckout this net request = ([], Throw e)
        /\ local_validation_error e).
Proof.
  destruct (validateCheckoutRequest_decides request) as [Hyes Hno].
  unfold OMPayClient.createCheckout. split; intro H.
  - rewrite (Hyes H). reflexivity.
  - destruct (Hno H) as [msg ->].
    eexists. split; [reflexivity | apply validation_error_is_local].
Qed.

Lemma createCheckout_calls_witness :
  List.length
    (fst (OMPayClient.createCheckout sandbox_client pending_gateway
            (checkout_request (VNum nan) (VStr "OMR") test_customer VUndefined)))
  = 1%nat
  /\ List.length
       (fst (OMPayClient.createCheckout sandbox_client pending_gateway
               (checkout_request (VNum infinity) (VStr "OMR") test_customer
                  VUndefined)))
     = 1%nat
  /\ fst (OMPayClient.createCheckout sandbox_client pending_gateway
            (checkout_request (VStr "100") (VStr "OMR") test_customer VUndefined))
     = [].
Proof.
  split; [| split].
  - destruct (createCheckout_calls sandbox_client pending_gateway
                (checkout_request (VNum nan) (VStr "OMR") test_customer
                   VUndefined)) as [Hsent _].
    rewrite Hsent; reflexivity.
  - destruct (createCheckout_calls sandbox_client pending_gateway
                (checkout_request (VNum infinity) (VStr "OMR") test_customer
                   VUndefined)) as [Hsent _].
    rewrite Hsent; reflexivity.
  - destruct (createCheckout_calls sandbox_client pending_gateway
                (checkout_request (VStr "100") (VStr "OMR") test_customer
                   VUndefined)) as [_ Hrefused].
    destruct Hrefused as (e & -> & _); reflexivity.
Defined.








(** X6. A 2xx answer whose body is null (or undefined) does not give a
    result: reading [orderId] off it throws inside the [try], the [catch]
    classifies the failure, and the operation, after its one call, throws
    an UNKNOWN_ERROR without status code or response. *)
Theorem null_body_is_unknown_error
    (this : OMPayClient.t) (net : Axios.network) (response : AxiosResponse.t) :
  nullish (AxiosResponse.data response) = true ->
  (forall request : CreateCheckoutRequest.t,
      checkout_accepted request = true ->
      net (Axios.post (OMPayClient.httpClient this) path_create_checkout
             (OMPayClient.checkout_payload request))
      = Axios.Resolved response ->
      exists e : OMPayError.t,
        OMPayClient.createCheckout this net request
        = ([Axios.post (OMPayClient.httpClient this) path_create_checkout
              (OMPayClient.checkout_payload request)],
           Throw e)
        /\ OMPayError.code e = UNKNOWN_ERROR
        /\ OMPayError.statusCode e = None
        /\ OMPayError.response e = VUndefined)
  /\ (forall id : string,
         id <> "" ->
         net (Axios.get (OMPayClient.httpClient this) path_check_status
                [("orderId", VStr id)])
         = Axios.Resolved response ->
         exists e : OMPayError.t,
           OMPayClient.checkStatus this net (VStr id)
           = ([Axios.get (OMPayClient.httpClient this) path_check_status
                 [("orderId", VStr id)]],
              Throw e)
           /\ OMPayError.code e = UNKNOWN_ERROR
           /\ OMPayError.statusCode e = None
           /\ OMPayError.response e = VUndefined).
Proof.
  intro Hnull. split.
  - intros request Hok Hnet.
    destruct (validateCheckoutRequest_decides request) as [Hyes _].
    unfold OMPayClient.createCheckout. rewrite (Hyes Hok).
    unfold path_create_checkout in *. rewrite Hnet, Hnull.
    eexists. split; [reflexivity |].
    destruct (AxiosResponse.data response); try discriminate Hnull;
      repeat split.
  - intros id Hid Hnet. unfold OMPayClient.checkStatus.
    rewrite nonempty_string_check. cbn [nonempty_string].
    apply String.eqb_neq in Hid. rewrite Hid. cbn [negb throw_if].
    unfold path_check_status in *. rewrite Hnet, Hnull.
    eexists. split; [reflexivity |].
    destruct (AxiosResponse.data response); try discriminate Hnull;
      repeat split.
Qed.

Lemma null_body_is_unknown_error_witness :
  exists e : OMPayError.t,
    snd (OMPayClient.checkStatus sandbox_client null_gateway (VStr "order-9"))
    = Throw e
    /\ OMPayError.code e = UNKNOWN_ERROR.
Proof.
  destruct (null_body_is_unknown_error sandbox_client null_gateway
              {| AxiosResponse.status := 200%float;
                 AxiosResponse.data := VNull |} eq_refl)
    as [_ Hstatus].
  destruct (Hstatus "order-9") as (e & Hrun & Hcode & _);
    [discriminate | reflexivity |].
  exists e. split; [now rewrite Hrun | exact Hcode].
Defined.

(* ================================================================== *)
(** * Further properties: signature verification *)
(* ================================================================== *)





(** X9. Only a string of 64 lowercase hexadecimal digits can be accepted:
    whenever [verifySignature] returns true, the signature is such a string
    (so a digest sent in capitals, or with surrounding spaces, is always
    refused). *)
Theorem accepted_signature_shape
    (this : OMPayClient.t) (payload : SignaturePayload.t) (signature : value) :
  OMPayClient.verifySignature this payload signature = Return true ->
  exists s : string,
    signature = VStr s
    /\ String.length s = 64%nat
    /\ all_chars is_lower_hex s = true.
Proof.
  unfold OMPayClient.verifySignature.
  destruct (negb (ToBoolean (SignaturePayload.orderId payload)) || _);
    cbn [throw_if bind]; [discriminate |].
  destruct (negb (ToBoolean signature) || _); cbn [throw_if bind];
    [discriminate |].
  intro H. injection H as H.
  destruct signature as [| | b | n | s | l | o]; try discriminate H.
  cbn [string_strict_equals] in H. apply String.eqb_eq in H. subst s.
  eexists. split; [reflexivity | split].
  - apply (keyed_hash_length (OMPayClient.clientSecret this)).
  - apply (keyed_hash_lowercase_hex (OMPayClient.clientSecret this)).
Qed.

Lemma accepted_signature_shape_witness :
  exists s : string,
    VStr (keyed_hash "my-super-secret-key" "order-123/pay-123") = VStr s
    /\ String.length s = 64%nat
    /\ all_chars is_lower_hex s = true.
Proof.
  apply (accepted_signature_shape sandbox_client
           (payload_of "order-123" "pay-123")
           (VStr (keyed_hash "my-super-secret-key" "order-123/pay-123"))).
  vm_compute. reflexivity.
Defined.



(* ================================================================== *)
(** * Further properties: construction and the transport *)
(* ================================================================== *)

Lemma nonempty_string_inv (v : value) :
  nonempty_string v = true -> exists s : string, v = VStr s /\ s <> "".
Proof.
  destruct v as [| | b | n | s | l | o]; try discriminate.
  cbn. intro H. exists s. split; [reflexivity |].
  apply String.eqb_neq. now apply negb_true_iff.
Qed.

Lemma includes_environment (v : value) :
  includes ["sandbox"; "production"] v = true ->
  v = VStr "sandbox" \/ v = VStr "production".
Proof.
  destruct v as [| | b | n | s | l | o]; try discriminate.
  unfold includes, existsb, string_strict_equals. rewrite orb_false_r.
  intro H. apply orb_true_iff in H.
  destruct H as [H | H]; apply String.eqb_eq in H; subst s; auto.
Qed.

(** What [validateConfig] does, in terms of the three tests. *)
Lemma validateConfig_cases (config : OMPayConfig.t) :
  OMPayClient.validateConfig config =
  if negb (nonempty_string (OMPayConfig.clientId config)) then
    Throw (OMPayClient.validation_error
             "clientId is required and must be a string")
  else if negb (nonempty_string (OMPayConfig.clientSecret config)) then
    Throw (OMPayClient.validation_error
             "clientSecret is required and must be a string")
  else if ToBoolean (OMPayConfig.environment config)
          && negb (includes ["sandbox"; "production"]
                            (OMPayConfig.environment config))
  then
    Throw (OMPayClient.validation_error
             "environment must be either 'sandbox' or 'production'")
  else Return tt.
Proof.
  unfold OMPayClient.validateConfig. rewrite !nonempty_string_check.
  destruct (negb (nonempty_string (OMPayConfig.clientId config)));
    [reflexivity |].
  destruct (negb (nonempty_string (OMPayConfig.clientSecret config)));
    [reflexivity |].
  cbn [throw_if bind]. destruct (_ && _); reflexivity.
Qed.

(** X11. Construction succeeds exactly on the configurations whose
    clientId and clientSecret are non-empty strings and whose environment
    is either falsy (undefined, null, but also the empty string, 0 or
    false) or one of "sandbox" and "production"; on every other
    configuration it throws a validation error without status code,
    response or original error. *)
Theorem new_succeeds_exactly (config : OMPayConfig.t) :
  (config_accepted config = true ->
   exists this : OMPayClient.t, OMPayClient.new config = Return this)
  /\ (config_accepted config = false ->
      exists e : OMPayError.t,
        OMPayClient.new config = Throw e /\ local_validation_error e).
Proof.
  unfold OMPayClient.new, config_accepted. rewrite validateConfig_cases.
  destruct (nonempty_string (OMPayConfig.clientId config)); cbn [negb andb];
    [| split; [discriminate | intros _; eexists; split;
                 [reflexivity | apply validation_error_is_local]]].
  destruct (nonempty_string (OMPayConfig.clientSecret config)); cbn [negb andb];
    [| split; [discriminate | intros _; eexists; split;
                 [reflexivity | apply validation_error_is_local]]].
  destruct (ToBoolean (OMPayConfig.environment config)),
    (includes ["sandbox"; "production"] (OMPayConfig.environment config));
    cbn [negb andb orb bind]; split; try discriminate; intros _; eexists;
    try reflexivity;
    (split; [reflexivity | apply validation_error_is_local]).
Qed.

Lemma new_succeeds_exactly_witness :
  (exists this : OMPayClient.t,
      OMPayClient.new
        (config_of (VStr "c1") (VStr "s1") (VBool false) VUndefined)
      = Return this)
  /\ (exists e : OMPayError.t,
         OMPayClient.new
           (config_of (VNum 7%float) (VStr "s1") VUndefined VUndefined)
         = Throw e
         /\ local_validation_error e).
Proof.
  split.
  - destruct (new_succeeds_exactly
                (config_of (VStr "c1") (VStr "s1") (VBool false) VUndefined))
      as [Hyes _].
    apply Hyes. reflexivity.
  - destruct (new_succeeds_exactly
                (config_of (VNum 7%float) (VStr "s1") VUndefined VUndefined))
      as [_ Hno].
    apply Hno. reflexivity.
Defined.

(** X12. The order of the configuration checks: a clientId that is not a
    non-empty string is reported first, then such a clientSecret, then a
    truthy environment outside the two names; each with its own message,
    whatever the later fields hold. *)
Theorem new_validation_order (config : OMPayConfig.t) :
  (nonempty_string (OMPayConfig.clientId config) = false ->
   OMPayClient.new config
   = Throw (OMPayClient.validation_error
              "clientId is required and must be a string"))
  /\ (nonempty_string (OMPayConfig.clientId config) = true ->
      nonempty_string (OMPayConfig.clientSecret config) = false ->
      OMPayClient.new config
      = Throw (OMPayClient.validation_error
                 "clientSecret is required and must be a string"))
  /\ (nonempty_string (OMPayConfig.clientId config) = true ->
      nonempty_string (OMPayConfig.clientSecret config) = true ->
      ToBoolean (OMPayConfig.environment config) = true ->
      includes ["sandbox"; "production"] (OMPayConfig.environment config)
      = false ->
      OMPayClient.new config
      = Throw (OMPayClient.validation_error
                 "environment must be either 'sandbox' or 'production'")).
Proof.
  unfold OMPayClient.new. rewrite validateConfig_cases.
  split; [| split].
  - intros ->. reflexivity.
  - intros -> ->. reflexivity.
  - intros -> -> -> ->. reflexivity.
Qed.

Lemma new_validation_order_witness :
  OMPayClient.new (config_of VUndefined VNull (VStr "staging") VUndefined)
  = Throw (OMPayClient.validation_error
             "clientId is required and must be a string")
  /\ OMPayClient.new (config_of (VStr "c1") (VStr "s1") (VStr "Sandbox") VUndefined)
     = Throw (OMPayClient.validation_error
                "environment must be either 'sandbox' or 'production'").
Proof.
  split.
  - destruct (new_validation_order
                (config_of VUndefined VNull (VStr "staging") VUndefined))
      as [Hid _].
    apply Hid. reflexivity.
  - destruct (new_validation_order
                (config_of (VStr "c1") (VStr "s1") (VStr "Sandbox") VUndefined))
      as (_ & _ & Henv).
    apply Henv; reflexivity.
Defined.

(** X13. What every constructed client holds. Its clientId and
    clientSecret are the configuration's, both non-empty strings, and
    [getClientId] returns the configured clientId; the transport is created
    with these two as basic-auth username and password, with the JSON
    content type as its only header, and with a base URL that is the one
    [getBaseUrl] returns. The environment is "sandbox" with the UAT host,
    or "production" with the live host, or else a falsy value. *)
Theorem constructed_client_invariant
    (config : OMPayConfig.t) (this : OMPayClient.t) :
  OMPayClient.new config = Return this ->
  OMPayConfig.clientId config = VStr (OMPayClient.getClientId this)
  /\ OMPayClient.getClientId this <> ""
  /\ OMPayConfig.clientSecret config = VStr (OMPayClient.clientSecret this)
  /\ OMPayClient.clientSecret this <> ""
  /\ Axios.auth (OMPayClient.httpClient this)
     = (VStr (OMPayClient.getClientId this),
        VStr (OMPayClient.clientSecret this))
  /\ Axios.headers (OMPayClient.httpClient this)
     = [("Content-Type", "application/json")]
  /\ Axios.baseURL (OMPayClient.httpClient this) = OMPayClient.getBaseUrl this
  /\ ((OMPayClient.getEnvironment this = VStr "sandbox"
       /\ OMPayClient.getBaseUrl this
          = VStr "https://api.uat.gateway.ompay.com")
      \/ (OMPayClient.getEnvironment this = VStr "production"
          /\ OMPayClient.getBaseUrl this = VStr "https://api.gateway.ompay.com")
      \/ ToBoolean (OMPayClient.getEnvironment this) = false).
Proof.
  unfold OMPayClient.new. rewrite validateConfig_cases.
  destruct (nonempty_string (OMPayConfig.clientId config)) eqn:Hid;
    cbn [negb]; [| discriminate].
  destruct (nonempty_string (OMPayConfig.clientSecret config)) eqn:Hsecret;
    cbn [negb]; [| discriminate].
  destruct (ToBoolean (OMPayConfig.environment config)
            && negb (includes ["sandbox"; "production"]
                              (OMPayConfig.environment config))) eqn:Henv;
    [discriminate |].
  cbn [bind]. intro H. injection H as <-.
  destruct (nonempty_string_inv _ Hid) as (id & Eid & Hid').
  destruct (nonempty_string_inv _ Hsecret) as (secret & Esecret & Hsecret').
  rewrite Eid, Esecret.
  unfold OMPayClient.getClientId, OMPayClient.getEnvironment,
    OMPayClient.getBaseUrl, Axios.create.
  cbn [OMPayClient.clientId OMPayClient.clientSecret OMPayClient.environment
       OMPayClient.httpClient Axios.auth Axios.headers Axios.baseURL as_string].
  repeat match goal with |- _ /\ _ => split end; try reflexivity; try assumption.
  apply andb_false_iff in Henv.
  destruct (ToBoolean (OMPayConfig.environment config)) eqn:Htruthy.
  - destruct Henv as [Henv | Henv]; [discriminate |].
    apply negb_false_iff in Henv.
    destruct (includes_environment _ Henv) as [-> | ->];
      [left | right; left]; split; reflexivity.
  - destruct (OMPayConfig.environment config) as [| | b | n | s | l | o];
      try discriminate Htruthy;
      [left; split; reflexivity | left; split; reflexivity | | |];
      right; right; exact Htruthy.
Qed.

Lemma constructed_client_invariant_witness :
  OMPayConfig.clientId production_config
  = VStr (OMPayClient.getClientId production_client)
  /\ Axios.baseURL (OMPayClient.httpClient production_client)
     = OMPayClient.getBaseUrl production_client.
Proof.
  destruct (constructed_client_invariant production_config production_client
              eq_refl)
    as (Hid & _ & _ & _ & _ & _ & Hurl & _).
  split; [exact Hid | exact Hurl].
Defined.

Lemma calls_go_through_httpClient
    (this : OMPayClient.t) (net : Axios.network)
    (request : CreateCheckoutRequest.t) (orderId : value) (call : Axios.call) :
  In call (fst (OMPayClient.createCheckout this net request))
  \/ In call (fst (OMPayClient.checkStatus this net orderId)) ->
  Axios.via call = OMPayClient.httpClient this.
Proof.
  unfold OMPayClient.createCheckout, OMPayClient.checkStatus.
  destruct (OMPayClient.validateCheckoutRequest request);
    destruct (throw_if _ _); cbn [fst In];
    intros [H | H]; try contradiction;
    destruct H as [<- | []]; reflexivity.
Qed.

(** X14. Every request of a constructed client goes through the transport
    made at construction: whatever call [createCheckout] or [checkStatus]
    issues carries the configuration's clientId and clientSecret as basic
    auth, the configured timeout (30000 when none was given) and the base
    URL of the client's environment. *)
Theorem requests_carry_configuration
    (config : OMPayConfig.t) (this : OMPayClient.t) (net : Axios.network)
    (request : CreateCheckoutRequest.t) (orderId : value) (call : Axios.call) :
  OMPayClient.new config = Return this ->
  In call (fst (OMPayClient.createCheckout this net request))
  \/ In call (fst (OMPayClient.checkStatus this net orderId)) ->
  Axios.auth (Axios.via call)
  = (OMPayConfig.clientId config, OMPayConfig.clientSecret config)
  /\ Axios.timeout (Axios.via call)
     = coalesce (OMPayConfig.timeout config) (VNum DEFAULT_TIMEOUT)
  /\ Axios.baseURL (Axios.via call) = OMPayClient.getBaseUrl this
  /\ Axios.headers (Axios.via call) = [("Content-Type", "application/json")].
Proof.
  intros Hnew Hcall.
  rewrite (calls_go_through_httpClient this net request orderId call Hcall).
  unfold OMPayClient.new in Hnew.
  destruct (OMPayClient.validateConfig config) as [[] | e]; cbn [bind] in Hnew;
    [| discriminate Hnew].
  injection Hnew as <-. repeat split.
Qed.

Lemma requests_carry_configuration_witness :
  Axios.auth
    (Axios.via
       (Axios.get (OMPayClient.httpClient production_client) path_check_status
          [("orderId", VStr "order-9")]))
  = (VStr "another-client", VStr "my-super-secret-key")
  /\ Axios.timeout
       (Axios.via
          (Axios.get (OMPayClient.httpClient production_client)
             path_check_status [("orderId", VStr "order-9")]))
     = VNum 5000%float.
Proof.
  destruct (requests_carry_configuration production_config production_client
              pending_gateway
              (checkout_request (VNum 0%float) (VStr "OMR") test_customer
                 VUndefined)
              (VStr "order-9")
              (Axios.get (OMPayClient.httpClient production_client)
                 path_check_status [("orderId", VStr "order-9")]))
    as (Hauth & Htimeout & _);
    [reflexivity | right; left; reflexivity |].
  split; [exact Hauth | exact Htimeout].
Defined.

(* ================================================================== *)
(** * Further properties: the error record *)
(* ================================================================== *)




(* ================================================================== *)
(** * Further properties: the fields of a status answer *)
(* ================================================================== *)


